(** * The discount resolution and pricing engine (services/discountService)

    A shallow embedding of [DiscountService] and of the [Discount] model's
    pre-save hook, with the properties of the pricing engine proved over it.

    Conventions of the embedding.
    - JavaScript numbers are doubles; here they are exact rationals ([Q]).
      Module [Binary64] repeats the price arithmetic on IEEE doubles, and
      the sample prices used below are checked to come out the same there.
      The two differ in the last bits of a result and, from about 10^13 on,
      in the cents.  The statements about amounts are therefore made for
      amounts between 0 and 10^12 ([moderate]) and say what holds of the
      doubles too: a bound, a margin of a cent around an exact value, or
      the equality of a result with an input.  Module [Margins] runs these
      margins on doubles at sample inputs.
    - Dates are milliseconds since the epoch ([Z]); [new Date()] is the
      explicit argument [now].
    - Mongoose collections are lists in insertion (natural) order, a query
      object is a small syntax tree interpreted by [Mongo.matches], and
      [.sort({percentage: -1})] is a stable sort on that order.
    - [await]ed calls run in the state-and-error monad [M] over the
      database; a thrown [Error] is the left summand. *)

From Stdlib Require Import ZArith QArith Qround Qabs Lia Lqa SpecFloat.
From stdpp Require Import base option list gmap strings.

Local Open Scope Z_scope.

(** ** JavaScript primitives *)

Module JS.

(** [Math.round(y)]: the integer nearest to [y], ties towards +infinity. *)
Definition Math_round (y : Q) : Q := inject_Z (Qfloor (y + (1 # 2))).

(** [x.toFixed(2)], as the number its decimal numeral denotes.  Following
    the language definition: the sign is split off, a magnitude of 10^21 or
    more is printed by [ToString], and otherwise the numeral is [n / 100]
    for the integer [n] closest to [100 * x], the larger one on a tie. *)
Definition toFixed2 (x : Q) : Q :=
  let neg := negb (Qle_bool 0 x) in
  let a := if neg then (- x)%Q else x in
  let m :=
    if Qle_bool (inject_Z (10 ^ 21)) a then a
    else (inject_Z (Qfloor (a * 100 + (1 # 2))) / 100)%Q in
  if neg then (- m)%Q else m.

(** [parseFloat] of a decimal numeral is the number it denotes. *)
Definition parseFloat (s : Q) : Q := s.

(** [a > b] on numbers. *)
Definition gt (a b : Q) : bool := negb (Qle_bool a b).

(** Truthiness of a string-or-null value: [null] and the empty string are
    falsy.  [truthy v] is the value itself when it is truthy. *)
Definition truthy (v : option string) : option string :=
  match v with
  | Some s => if String.eqb s EmptyString then None else Some s
  | None => None
  end.

Definition is_truthy (v : option string) : bool :=
  match truthy v with Some _ => true | None => false end.

(** [arr.includes(x)] on strings and ids (compared by value). *)
Definition includes (arr : list string) (x : string) : bool :=
  existsb (String.eqb x) arr.

End JS.

(** ** The price arithmetic on IEEE doubles

    The same expressions as in the two pricing paths, on binary64 values
    with round-to-nearest-even, used to check the sample prices. *)

Module Binary64.

Definition prec : Z := 53.
Definition emax : Z := 1024.

Definition of_Z (n : Z) : spec_float := binary_normalize prec emax n 0 false.
Definition mul : spec_float -> spec_float -> spec_float := SFmul prec emax.
Definition div : spec_float -> spec_float -> spec_float := SFdiv prec emax.
Definition sub : spec_float -> spec_float -> spec_float := SFsub prec emax.

(** The real number a finite double stands for. *)
Definition value (f : spec_float) : Q :=
  match f with
  | S754_finite s m e =>
      ((if s then -1 else 1) * inject_Z (Zpos m) * Qpower 2 e)%Q
  | _ => 0%Q
  end.

(** [Math.round] *)
Definition Math_round (f : spec_float) : spec_float :=
  match f with
  | S754_finite _ _ _ => of_Z (Qfloor (value f + (1 # 2)))
  | _ => f
  end.

(** The double nearest to the decimal numeral [n / 100] with sign [neg]. *)
Definition decimal2 (neg : bool) (n : Z) : spec_float :=
  match n with
  | Zpos m => div (S754_finite neg m 0) (of_Z 100)
  | _ => S754_zero neg
  end.

(** [parseFloat(f.toFixed(2))] *)
Definition toFixed2 (f : spec_float) : spec_float :=
  match f with
  | S754_finite s _ _ =>
      let a := Qabs (value f) in
      if Qle_bool (inject_Z (10 ^ 21)) a then f
      else decimal2 s (Qfloor (a * 100 + (1 # 2)))
  | _ => f
  end.

(** [Math.round(price * ((100 - percentage) / 100) * 100) / 100] *)
Definition discounted (x p : spec_float) : spec_float :=
  div (Math_round (mul (mul x (div (sub (of_Z 100) p) (of_Z 100))) (of_Z 100)))
      (of_Z 100).

(** [parseFloat((price - discountedPrice).toFixed(2))] *)
Definition saved (x p : spec_float) : spec_float :=
  toFixed2 (sub x (discounted x p)).

End Binary64.

(** The margins that the statements about amounts use, as tests on
    doubles, and sample inputs to run them on. *)

Module Margins.

Definition quotient (a b : Z) : spec_float :=
  Binary64.div (Binary64.of_Z a) (Binary64.of_Z b).

Definition not_above (c : option comparison) : bool :=
  match c with Some Lt | Some Eq => true | _ => false end.

Definition equal (c : option comparison) : bool :=
  match c with Some Eq => true | _ => false end.

(** The whole number of cents nearest to a double. *)
Definition cents_of (f : spec_float) : Z :=
  Qfloor (Binary64.value f * 100 + (1 # 2)).

(** For a price [x] and a percentage [p]: the discounted price is not
    negative, within 10^-4 of a whole number of cents and within a cent of
    [x * (100 - p) / 100]; the saved amount is within 10^-4 of a whole
    number of cents and within a cent of the difference between [x] and
    the discounted price. *)
Definition general (x p : spec_float) : bool :=
  let dp := Binary64.discounted x p in
  let s := Binary64.saved x p in
  Qle_bool 0 (Binary64.value dp)
  && negb (Qle_bool (1 # 10000)
             (Qabs (Binary64.value dp - inject_Z (cents_of dp) / 100)))
  && negb (Qle_bool (1 # 100)
             (Qabs (Binary64.value dp
                    - Binary64.value x * (100 - Binary64.value p) / 100)))
  && negb (Qle_bool (1 # 10000)
             (Qabs (Binary64.value s - inject_Z (cents_of s) / 100)))
  && negb (Qle_bool (1 # 100)
             (Qabs (Binary64.value s - (Binary64.value x - Binary64.value dp)))).

(** For the price of [k] cents: moreover the discounted price is at most
    the price and the saved amount is not negative, and at a percentage of
    0 they are the price itself and 0. *)
Definition in_cents (k : Z) (p : spec_float) : bool :=
  let x := quotient k 100 in
  general x p
  && not_above (SFcompare (Binary64.discounted x p) x)
  && not_above (SFcompare (Binary64.of_Z 0) (Binary64.saved x p))
  && equal (SFcompare (Binary64.discounted x (Binary64.of_Z 0)) x)
  && equal (SFcompare (Binary64.saved x (Binary64.of_Z 0)) (Binary64.of_Z 0)).

(** Sample inputs: a linear congruential sequence, read as percentages in
    [0, 100] (whole, with decimals, a third, nearly 100) and as amounts in
    cents up to 10^14 (small, medium, and at the upper end). *)
Fixpoint sequence (n : nat) (seed : Z) : list Z :=
  match n with
  | O => []
  | S n =>
      let next := (seed * 6364136223846793005 + 1442695040888963407) mod 2 ^ 64 in
      next :: sequence n next
  end.

Definition percentage_of (r : Z) : spec_float :=
  match r mod 7 with
  | 0 => Binary64.of_Z (r mod 101)
  | 1 => quotient (r mod 10001) 100
  | 2 => quotient (r mod 100000001) 1000000
  | 3 => quotient 1 3
  | 4 => quotient (r mod 1001) 10
  | 5 => quotient (100 * (r mod 9007199254740993)) 9007199254740992
  | _ => Binary64.of_Z 0
  end.

Definition amount_of (r : Z) : Z :=
  match (r / 7) mod 5 with
  | 0 => r mod 100000000000001
  | 1 => r mod 1000001
  | 2 => 100000000000000 - r mod 1000
  | 3 => r mod 10001
  | _ => r mod 100000000001
  end.

Definition samples : list Z := sequence 1000 42.

End Margins.

(** ** Data model (models/Discount, models/Product, models/User) *)

Definition ObjectId := string.
Definition Date := Z.

Module Discount.

(** [enum: ['product', 'category', 'userGroup', 'general']] *)
Inductive kind := product | category | userGroup_ | general.

Definition kind_eqb (a b : kind) : bool :=
  match a, b with
  | product, product | category, category
  | userGroup_, userGroup_ | general, general => true
  | _, _ => false
  end.

Definition kind_name (k : kind) : string :=
  match k with
  | product => "product"
  | category => "category"
  | userGroup_ => "userGroup"
  | general => "general"
  end.

Record t := mk {
  _id : ObjectId;
  name : string;
  description : option string;
  percentage : Q;
  type : kind;
  products : list ObjectId;
  categories : list string;
  userGroup : option string;
  startDate : Date;
  endDate : Date;
  active : bool;
  createdAt : Date
}.

End Discount.

Module Product.

(** The paths of the product schema, with the [_id] and the version key
    [__v] that every stored document carries. *)
Record t := mk {
  _id : ObjectId;
  name : string;
  description : string;
  price : Q;
  category : string;
  imageUrl : string;
  stock : Q;
  createdAt : Date;
  updatedAt : Date;
  isActive : bool;
  __v : Z
}.

End Product.

Module User.

(** Of the user schema only [_id] and [userGroup] are read by the engine. *)
Record t := mk {
  _id : ObjectId;
  userGroup : option string
}.

End User.

(** The three collections. *)
Record DB := mkDB {
  Products : list Product.t;
  Users : list User.t;
  Discounts : list Discount.t
}.

(** ** Query objects and their meaning on the [Discount] collection *)

Module Mongo.

(** One [field: condition] entry of a query object. *)
Inductive cond :=
| type_is (k : Discount.kind)               (* type: k *)
| products_has (id : ObjectId)              (* products: id *)
| products_in (ids : list ObjectId)         (* products: {$in: ids} *)
| categories_has (c : string)               (* categories: c *)
| categories_in (cs : list string)          (* categories: {$in: cs} *)
| userGroup_is (g : string)                 (* userGroup: g *)
| startDate_lte (t : Date)                  (* startDate: {$lte: t} *)
| endDate_gte (t : Date)                    (* endDate: {$gte: t} *)
| active_is (b : bool).                     (* active: b *)

(** A query object: an optional [$or] array of clause objects and the
    remaining top-level entries, all of which must hold. *)
Record query := mkQuery {
  or_ : option (list (list cond));
  fields : list cond
}.

Definition holds (d : Discount.t) (c : cond) : bool :=
  match c with
  | type_is k => Discount.kind_eqb (Discount.type d) k
  | products_has id => existsb (String.eqb id) (Discount.products d)
  | products_in ids =>
      existsb (fun x => existsb (String.eqb x) ids) (Discount.products d)
  | categories_has c => existsb (String.eqb c) (Discount.categories d)
  | categories_in cs =>
      existsb (fun x => existsb (String.eqb x) cs) (Discount.categories d)
  | userGroup_is g =>
      match Discount.userGroup d with
      | Some g' => String.eqb g' g
      | None => false
      end
  | startDate_lte t => Discount.startDate d <=? t
  | endDate_gte t => t <=? Discount.endDate d
  | active_is b => Bool.eqb (Discount.active d) b
  end.

Definition matches (q : query) (d : Discount.t) : bool :=
  match or_ q with
  | Some clauses => existsb (forallb (holds d)) clauses
  | None => true
  end && forallb (holds d) (fields q).

(** [$or.push(clause)] *)
Definition push_or (q : query) (clause : list cond) : query :=
  mkQuery (option_map (fun cs => cs ++ [clause]) (or_ q)) (fields q).

(** [.sort({percentage: -1})]: stable, highest percentage first. *)
Fixpoint insert_desc (d : Discount.t) (l : list Discount.t) : list Discount.t :=
  match l with
  | [] => [d]
  | x :: xs =>
      if JS.gt (Discount.percentage x) (Discount.percentage d)
      then x :: insert_desc d xs
      else d :: x :: xs
  end.

Definition sort_percentage_desc (l : list Discount.t) : list Discount.t :=
  foldr insert_desc [] l.

End Mongo.

(** ** The monad of database calls *)

Inductive Error := mkError (message : string).

Definition M (A : Type) : Type := DB -> (Error + A) * DB.

Definition ret {A} (a : A) : M A := fun db => (inr a, db).

Definition throw {A} (e : Error) : M A := fun db => (inl e, db).

Definition bind {A B} (m : M A) (k : A -> M B) : M B :=
  fun db =>
    match m db with
    | (inl e, db') => (inl e, db')
    | (inr a, db') => k a db'
    end.

Notation "'await' x ':=' m 'in' k" := (bind m (fun x => k))
  (at level 10, x name, m at level 200, k at level 200).

(** [Product.findById(id)] *)
Definition Product_findById (id : ObjectId) : M (option Product.t) :=
  fun db => (inr (List.find (fun p => String.eqb (Product._id p) id) (Products db)), db).

(** [User.findById(id)] *)
Definition User_findById (id : ObjectId) : M (option User.t) :=
  fun db => (inr (List.find (fun u => String.eqb (User._id u) id) (Users db)), db).

(** [Discount.find(query)] *)
Definition Discount_find (q : Mongo.query) : M (list Discount.t) :=
  fun db => (inr (List.filter (Mongo.matches q) (Discounts db)), db).

(** [Discount.find(query).sort({percentage: -1})] *)
Definition Discount_find_sorted (q : Mongo.query) : M (list Discount.t) :=
  fun db =>
    (inr (Mongo.sort_percentage_desc (List.filter (Mongo.matches q) (Discounts db))), db).

(** ** Persisting discounts (models/Discount) *)

(** The request body handed to the admin surface, as an object of plain
    schema paths, each of them optional.  (An update body built from update
    operators such as [$inc] is outside this type.) *)
Module Body.

Record t := mk {
  name : option string;
  description : option string;
  percentage : option Q;
  type : option string;
  products : option (list ObjectId);
  categories : option (list string);
  userGroup : option string;
  startDate : option Date;
  endDate : option Date;
  active : option bool;
  createdAt : option Date
}.

End Body.

Module DiscountModel.

Definition kind_of_name (s : string) : option Discount.kind :=
  if String.eqb s "product" then Some Discount.product
  else if String.eqb s "category" then Some Discount.category
  else if String.eqb s "userGroup" then Some Discount.userGroup_
  else if String.eqb s "general" then Some Discount.general
  else None.

(** [min: 0, max: 100] *)
Definition percentage_ok (q : Q) : bool := Qle_bool 0 q && Qle_bool q 100.

(** [required: true] on a string path refuses the empty string. *)
Definition required_ok (s : string) : bool := negb (String.eqb s EmptyString).

(** [new Discount(data)] together with the schema validation that [save()]
    runs first: the required paths are present ([name] not empty),
    [percentage] is within its bounds, [type] is in the enum; [active] and
    [createdAt] default to [true] and to the current time. *)
Definition construct (newId : ObjectId) (now : Date) (data : Body.t)
    : option Discount.t :=
  match Body.name data, Body.percentage data,
        Body.type data ≫= kind_of_name,
        Body.startDate data, Body.endDate data with
  | Some n, Some p, Some k, Some s, Some e =>
      if required_ok n && percentage_ok p then
        Some (Discount.mk newId n (Body.description data) p k
                (default [] (Body.products data))
                (default [] (Body.categories data))
                (Body.userGroup data) s e
                (default true (Body.active data))
                (default now (Body.createdAt data)))
      else None
  | _, _, _, _, _ => None
  end.

(** [discountSchema.pre('save', ...)]:
    [this.active = this.startDate <= now && this.endDate >= now]. *)
Definition pre_save (now : Date) (this : Discount.t) : Discount.t :=
  Discount.mk (Discount._id this) (Discount.name this)
    (Discount.description this) (Discount.percentage this)
    (Discount.type this) (Discount.products this)
    (Discount.categories this) (Discount.userGroup this)
    (Discount.startDate this) (Discount.endDate this)
    ((Discount.startDate this <=? now) && (Discount.endDate this >=? now))
    (Discount.createdAt this).

(** Update validators ([runValidators: true]) look at the paths being set. *)
Definition update_ok (u : Body.t) : bool :=
  match Body.name u with Some n => required_ok n | None => true end
  && match Body.percentage u with Some p => percentage_ok p | None => true end
  && match Body.type u with
     | Some s => match kind_of_name s with Some _ => true | None => false end
     | None => true
     end.

(** The update document is applied path by path ([$set]). *)
Definition apply_update (u : Body.t) (d : Discount.t) : Discount.t :=
  Discount.mk (Discount._id d)
    (default (Discount.name d) (Body.name u))
    (match Body.description u with Some x => Some x | None => Discount.description d end)
    (default (Discount.percentage d) (Body.percentage u))
    (default (Discount.type d) (Body.type u ≫= kind_of_name))
    (default (Discount.products d) (Body.products u))
    (default (Discount.categories d) (Body.categories u))
    (match Body.userGroup u with Some x => Some x | None => Discount.userGroup d end)
    (default (Discount.startDate d) (Body.startDate u))
    (default (Discount.endDate d) (Body.endDate u))
    (default (Discount.active d) (Body.active u))
    (default (Discount.createdAt d) (Body.createdAt u)).

Fixpoint replace_by_id (id : ObjectId) (d' : Discount.t) (l : list Discount.t)
    : list Discount.t :=
  match l with
  | [] => []
  | d :: rest =>
      if String.eqb (Discount._id d) id then d' :: rest
      else d :: replace_by_id id d' rest
  end.

(** [new Discount(data)] then [discount.save()]: validation, the pre-save
    hook, and the insertion at the end of the collection. *)
Definition save_new (newId : ObjectId) (now : Date) (data : Body.t) : M Discount.t :=
  fun db =>
    match construct newId now data with
    | None => (inl (mkError "Discount validation failed"), db)
    | Some doc =>
        let doc := pre_save now doc in
        (inr doc, mkDB (Products db) (Users db) (Discounts db ++ [doc]))
    end.

(** [Discount.findByIdAndUpdate(id, update, {new: true, runValidators: true})]:
    a query-level update, on which document middleware such as
    [pre('save')] does not run. *)
Definition findByIdAndUpdate (id : ObjectId) (u : Body.t) : M (option Discount.t) :=
  fun db =>
    if update_ok u then
      match List.find (fun d => String.eqb (Discount._id d) id) (Discounts db) with
      | None => (inr None, db)
      | Some d =>
          let d' := apply_update u d in
          (inr (Some d'),
           mkDB (Products db) (Users db) (replace_by_id id d' (Discounts db)))
      end
    else (inl (mkError "Validation failed"), db).

End DiscountModel.

(** ** Plain objects returned to the callers *)

Inductive JSVal :=
| VNum (q : Q)
| VStr (s : string)
| VBool (b : bool)
| VDate (t : Date)
| VId (i : ObjectId)
| VDoc (d : Discount.t).

(** An object is the finite map of its own properties. *)
Abbreviation JSObject := (gmap string JSVal).

(** The lean product object (what [Product.find(...).lean()] yields). *)
Definition lean (p : Product.t) : JSObject :=
  <["_id" := VId (Product._id p)]>
  (<["name" := VStr (Product.name p)]>
  (<["description" := VStr (Product.description p)]>
  (<["price" := VNum (Product.price p)]>
  (<["category" := VStr (Product.category p)]>
  (<["imageUrl" := VStr (Product.imageUrl p)]>
  (<["stock" := VNum (Product.stock p)]>
  (<["createdAt" := VDate (Product.createdAt p)]>
  (<["updatedAt" := VDate (Product.updatedAt p)]>
  (<["isActive" := VBool (Product.isActive p)]>
  (<["__v" := VNum (inject_Z (Product.__v p))]> ∅)))))))))).

(** ** services/discountService *)

Module DiscountService.

Import Mongo.

Definition getApplicableDiscounts (now : Date)
    (productId : ObjectId) (userId : option ObjectId) : M (list Discount.t) :=
  await product := Product_findById productId in
  match product with
  | None => throw (mkError "Product not found")
  | Some product =>
      let query :=
        mkQuery
          (Some [ [products_has productId];
                  [type_is Discount.category; categories_has (Product.category product)];
                  [type_is Discount.general] ])
          [startDate_lte now; endDate_gte now; active_is true] in
      await query :=
        match JS.truthy userId with
        | Some uid =>
            await user := User_findById uid in
            match user with
            | Some user =>
                match JS.truthy (User.userGroup user) with
                | Some g =>
                    ret (push_or query [type_is Discount.userGroup_; userGroup_is g])
                | None => ret query
                end
            | None => ret query
            end
        | None => ret query
        end in
      Discount_find_sorted query
  end.

Definition calculateBestDiscount (now : Date)
    (productId : ObjectId) (userId : option ObjectId) : M (option Discount.t) :=
  await discounts := getApplicableDiscounts now productId userId in
  ret (head discounts).

Definition calculateProductDiscount (now : Date)
    (productId : ObjectId) (userId : option ObjectId) : M JSObject :=
  await product := Product_findById productId in
  match product with
  | None => throw (mkError "Product not found")
  | Some product =>
      await bestDiscount := calculateBestDiscount now productId userId in
      match bestDiscount with
      | None =>
          ret (<["originalPrice" := VNum (Product.price product)]>
               (<["discountedPrice" := VNum (Product.price product)]>
               (<["hasDiscount" := VBool false]> ∅)))
      | Some bestDiscount =>
          let discountMultiplier := ((100 - Discount.percentage bestDiscount) / 100)%Q in
          let discountedPrice :=
            (JS.Math_round (Product.price product * discountMultiplier * 100) / 100)%Q in
          ret (<["originalPrice" := VNum (Product.price product)]>
               (<["discountedPrice" := VNum discountedPrice]>
               (<["discountPercentage" := VNum (Discount.percentage bestDiscount)]>
               (<["discount" := VDoc bestDiscount]>
               (<["hasDiscount" := VBool true]>
               (<["savedAmount" :=
                    VNum (JS.parseFloat (JS.toFixed2 (Product.price product - discountedPrice)))]>
               (<["discountType" := VStr (Discount.kind_name (Discount.type bestDiscount))]>
                ∅)))))))
      end
  end.

(** [combinedDiscounts.filter(d => ...)] for one product. *)
Definition productDiscounts (combinedDiscounts : list Discount.t)
    (userId : option ObjectId) (product : Product.t) : list Discount.t :=
  List.filter (fun d =>
    Discount.kind_eqb (Discount.type d) Discount.general
    || (Discount.kind_eqb (Discount.type d) Discount.category
        && JS.includes (Discount.categories d) (Product.category product))
    || (Discount.kind_eqb (Discount.type d) Discount.product
        && JS.includes (Discount.products d) (Product._id product))
    || (Discount.kind_eqb (Discount.type d) Discount.userGroup_
        && JS.is_truthy userId)) combinedDiscounts.

(** [l.length ? l.reduce((max, d) => d.percentage > max.percentage ? d : max) : null] *)
Definition reduce_max (l : list Discount.t) : option Discount.t :=
  match l with
  | d0 :: rest =>
      Some (fold_left (fun max d =>
              if JS.gt (Discount.percentage d) (Discount.percentage max)
              then d else max) rest d0)
  | [] => None
  end.

(** The callback of [products.map] in [applyBulkDiscounts]; the spread
    [...product] contributes the properties of the lean product object. *)
Definition priceWith (combinedDiscounts : list Discount.t)
    (userId : option ObjectId) (product : Product.t) : JSObject :=
  let productDiscounts := productDiscounts combinedDiscounts userId product in
  let bestDiscount := reduce_max productDiscounts in
  match bestDiscount with
  | None =>
      <["hasDiscount" := VBool false]>
      (<["discountedPrice" := VNum (Product.price product)]>
      (<["originalPrice" := VNum (Product.price product)]>
      (lean product)))
  | Some bestDiscount =>
      let discountMultiplier := ((100 - Discount.percentage bestDiscount) / 100)%Q in
      let discountedPrice :=
        (JS.Math_round (Product.price product * discountMultiplier * 100) / 100)%Q in
      <["discountType" := VStr (Discount.kind_name (Discount.type bestDiscount))]>
      (<["savedAmount" :=
           VNum (JS.parseFloat (JS.toFixed2 (Product.price product - discountedPrice)))]>
      (<["hasDiscount" := VBool true]>
      (<["discount" := VDoc bestDiscount]>
      (<["discountPercentage" := VNum (Discount.percentage bestDiscount)]>
      (<["discountedPrice" := VNum discountedPrice]>
      (<["originalPrice" := VNum (Product.price product)]>
      (lean product)))))))
  end.

Definition applyBulkDiscounts (now : Date)
    (products : list Product.t) (userId : option ObjectId) : M (list JSObject) :=
  await allDiscounts :=
    Discount_find
      (mkQuery
         (Some [ [products_in (map Product._id products)];
                 [type_is Discount.category;
                  categories_in (remove_dups (map Product.category products))];
                 [type_is Discount.general] ])
         [startDate_lte now; endDate_gte now; active_is true]) in
  await userGroupDiscounts :=
    match JS.truthy userId with
    | Some uid =>
        await user := User_findById uid in
        match user with
        | Some user =>
            match JS.truthy (User.userGroup user) with
            | Some g =>
                Discount_find
                  (mkQuery None
                     [type_is Discount.userGroup_; userGroup_is g;
                      startDate_lte now; endDate_gte now; active_is true])
            | None => ret []
            end
        | None => ret []
        end
    | None => ret []
    end in
  let combinedDiscounts := allDiscounts ++ userGroupDiscounts in
  ret (map (priceWith combinedDiscounts userId) products).

Definition createDiscount (newId : ObjectId) (now : Date)
    (discountData : Body.t) : M Discount.t :=
  await discount := DiscountModel.save_new newId now discountData in
  ret discount.

Definition updateDiscount (discountId : ObjectId) (updateData : Body.t)
    : M (option Discount.t) :=
  DiscountModel.findByIdAndUpdate discountId updateData.

Definition getActiveDiscounts (now : Date) : M (list Discount.t) :=
  Discount_find_sorted
    (mkQuery None [startDate_lte now; endDate_gte now; active_is true]).

End DiscountService.

(** ** Objects by reference

    The products handed to [applyBulkDiscounts] are references to plain
    objects; every object literal of the service allocates a new object. *)

#[global] Instance Q_eq_dec : EqDecision Q.
Proof. solve_decision. Defined.

#[global] Instance kind_eq_dec : EqDecision Discount.kind.
Proof. solve_decision. Defined.

#[global] Instance Discount_eq_dec : EqDecision Discount.t.
Proof. solve_decision. Defined.

#[global] Instance JSVal_eq_dec : EqDecision JSVal.
Proof. solve_decision. Defined.

Abbreviation Heap := (gmap positive JSObject).

Module Ref.

Definition asId (v : JSVal) : option ObjectId :=
  match v with VId i => Some i | _ => None end.
Definition asStr (v : JSVal) : option string :=
  match v with VStr s => Some s | _ => None end.
Definition asNum (v : JSVal) : option Q :=
  match v with VNum q => Some q | _ => None end.
Definition asDate (v : JSVal) : option Date :=
  match v with VDate t => Some t | _ => None end.
Definition asBool (v : JSVal) : option bool :=
  match v with VBool b => Some b | _ => None end.

(** Reading an object as a lean product: its properties are exactly those
    of a stored product, each of its schema type. *)
Definition unlean (o : JSObject) : option Product.t :=
  i ← o !! "_id" ≫= asId;
  n ← o !! "name" ≫= asStr;
  ds ← o !! "description" ≫= asStr;
  pr ← o !! "price" ≫= asNum;
  c ← o !! "category" ≫= asStr;
  im ← o !! "imageUrl" ≫= asStr;
  st ← o !! "stock" ≫= asNum;
  ca ← o !! "createdAt" ≫= asDate;
  ua ← o !! "updatedAt" ≫= asDate;
  a ← o !! "isActive" ≫= asBool;
  v ← o !! "__v" ≫= asNum;
  let p := Product.mk i n ds pr c im st ca ua a (Qfloor v) in
  if decide (lean p = o) then Some p else None.

(** The products behind a list of references. *)
Definition deref (h : Heap) (refs : list positive) : option (list Product.t) :=
  mapM (fun l => h !! l ≫= unlean) refs.

(** An object literal: a new object at an unused address. *)
Definition alloc (o : JSObject) (h : Heap) : positive * Heap :=
  let l := fresh (dom h) in (l, <[l := o]> h).

Fixpoint alloc_all (os : list JSObject) (h : Heap) : list positive * Heap :=
  match os with
  | [] => ([], h)
  | o :: rest =>
      let '(l, h1) := alloc o h in
      let '(ls, h2) := alloc_all rest h1 in
      (l :: ls, h2)
  end.

(** [applyBulkDiscounts] on references: the result is the list of the new
    objects' addresses together with the heap after the call.  [None]
    stands for an argument that is not a list of product objects. *)
Definition applyBulkDiscounts (now : Date) (products : list positive)
    (userId : option ObjectId) (h : Heap) : M (option (list positive * Heap)) :=
  match deref h products with
  | None => ret None
  | Some ps =>
      await priced := DiscountService.applyBulkDiscounts now ps userId in
      ret (Some (alloc_all priced h))
  end.

End Ref.

(** ** Notions used in the statements *)

(** Following the specification's words: [round2] rounds to two decimal
    places, a half away from zero. *)
Definition round2 (y : Q) : Q :=
  if Qle_bool 0 y then (inject_Z (Qfloor (y * 100 + (1 # 2))) / 100)%Q
  else (- (inject_Z (Qfloor (- y * 100 + (1 # 2))) / 100))%Q.

(** An amount with at most two decimals. *)
Definition whole_cents (x : Q) : Prop := exists k : Z, (x == inject_Z k / 100)%Q.

(** An amount between 0 and 10^12, where neighbouring doubles lie far less
    than a cent apart. *)
Definition moderate (x : Q) : Prop := (0 <= x <= inject_Z (10 ^ 12))%Q.

(** A whole number of cents, up to the resolution of a double in the
    moderate range (the double nearest to [k / 100] for a whole [k]). *)
Definition near_cents (x : Q) : Prop :=
  exists k : Z, (Qabs (x - inject_Z k / 100) < 1 # 10000)%Q.

(** The price computed from a price [x] and a percentage [p], as both
    pricing paths write it. *)
Definition discounted (x p : Q) : Q :=
  (JS.Math_round (x * ((100 - p) / 100) * 100) / 100)%Q.

(** The amount saved, as both pricing paths write it. *)
Definition saved (x p : Q) : Q :=
  JS.parseFloat (JS.toFixed2 (x - discounted x p)).

(** The product a product id resolves to. *)
Definition product_of (db : DB) (id : ObjectId) : option Product.t :=
  List.find (fun p => String.eqb (Product._id p) id) (Products db).

(** The group of the user behind a user id: present when the id is given,
    resolves to a user, and that user's [userGroup] is non-empty. *)
Definition group_of (db : DB) (userId : option ObjectId) : option string :=
  match JS.truthy userId with
  | Some uid =>
      match List.find (fun u => String.eqb (User._id u) uid) (Users db) with
      | Some user => JS.truthy (User.userGroup user)
      | None => None
      end
  | None => None
  end.

(** The validity window contains [now]. *)
Definition in_window (now : Date) (d : Discount.t) : bool :=
  (Discount.startDate d <=? now) && (now <=? Discount.endDate d).

(** In its window and flagged active. *)
Definition live (now : Date) (d : Discount.t) : bool :=
  in_window now d && Discount.active d.

(** [d.userGroup] is the group [g]. *)
Definition has_group (d : Discount.t) (g : string) : bool :=
  match Discount.userGroup d with
  | Some g' => String.eqb g' g
  | None => false
  end.

(** What the [$or] of the single-product query accepts. *)
Definition single_or (productId : ObjectId) (cat : string) (g : option string)
    (d : Discount.t) : bool :=
  JS.includes (Discount.products d) productId
  || (Discount.kind_eqb (Discount.type d) Discount.category
      && JS.includes (Discount.categories d) cat)
  || Discount.kind_eqb (Discount.type d) Discount.general
  || match g with
     | Some g => Discount.kind_eqb (Discount.type d) Discount.userGroup_ && has_group d g
     | None => false
     end.

(** Following the specification's words: the scope of a discount matches a
    product when the discount is [general], or [category]-scoped to the
    product's category, or [product]-scoped including the product's id, or
    (for a user with a group) [userGroup]-scoped to that group. *)
Definition scope_matches (p : Product.t) (g : option string) (d : Discount.t) : bool :=
  match Discount.type d with
  | Discount.general => true
  | Discount.category => JS.includes (Discount.categories d) (Product.category p)
  | Discount.product => JS.includes (Discount.products d) (Product._id p)
  | Discount.userGroup_ =>
      match g with
      | Some g => has_group d g
      | None => false
      end
  end.

(** The merged candidate pool of the bulk path. *)
Definition pool (now : Date) (products : list Product.t) (g : option string)
    (db : DB) : list Discount.t :=
  List.filter (fun d =>
      (existsb (fun x => JS.includes (map Product._id products) x) (Discount.products d)
       || (Discount.kind_eqb (Discount.type d) Discount.category
           && existsb (fun x => JS.includes (map Product.category products) x)
                (Discount.categories d))
       || Discount.kind_eqb (Discount.type d) Discount.general)
      && live now d) (Discounts db)
  ++ match g with
     | Some g =>
         List.filter (fun d =>
           Discount.kind_eqb (Discount.type d) Discount.userGroup_
           && has_group d g && live now d) (Discounts db)
     | None => []
     end.

(** The names of the derived pricing properties. *)
Definition pricing_fields : list string :=
  ["originalPrice"; "discountedPrice"; "discountPercentage"; "discount";
   "hasDiscount"; "savedAmount"; "discountType"].

(** [d] has the highest percentage among [l]. *)
Definition is_best (l : list Discount.t) (d : Discount.t) : Prop :=
  In d l /\ forall d', In d' l -> (Discount.percentage d' <= Discount.percentage d)%Q.

(** The two shapes of a pricing result. *)
Definition plain_price (x : Q) : JSObject :=
  <["originalPrice" := VNum x]>
  (<["discountedPrice" := VNum x]>
  (<["hasDiscount" := VBool false]> ∅)).

Definition reduced_price (x : Q) (b : Discount.t) : JSObject :=
  <["originalPrice" := VNum x]>
  (<["discountedPrice" := VNum (discounted x (Discount.percentage b))]>
  (<["discountPercentage" := VNum (Discount.percentage b)]>
  (<["discount" := VDoc b]>
  (<["hasDiscount" := VBool true]>
  (<["savedAmount" := VNum (saved x (Discount.percentage b))]>
  (<["discountType" := VStr (Discount.kind_name (Discount.type b))]> ∅)))))).

Definition pricing (x : Q) (best : option Discount.t) : JSObject :=
  match best with
  | Some b => reduced_price x b
  | None => plain_price x
  end.

(** [o] is what one of the two pricing paths returns for the product [p]:
    [calculateProductDiscount] on an id that resolves to [p], or the entry
    of [applyBulkDiscounts] at the position of [p]. *)
Inductive priced (now : Date) (db : DB) (userId : option ObjectId)
    (p : Product.t) (o : JSObject) : Prop :=
| priced_single (productId : ObjectId) :
    product_of db productId = Some p ->
    fst (DiscountService.calculateProductDiscount now productId userId db) = inr o ->
    priced now db userId p o
| priced_bulk (products : list Product.t) (l : list JSObject) (i : nat) :
    products !! i = Some p ->
    fst (DiscountService.applyBulkDiscounts now products userId db) = inr l ->
    l !! i = Some o ->
    priced now db userId p o.

(** Two properties hold the same number (or are both absent). *)
Definition same_number (a b : option JSVal) : Prop :=
  match a, b with
  | Some (VNum x), Some (VNum y) => (x == y)%Q
  | None, None => True
  | _, _ => False
  end.

(** Only discounts of type [product] or [general] list the product [p]
    under [products]. *)
Definition listed_by_type (db : DB) (p : Product.t) : Prop :=
  forall d, In d (Discounts db) ->
    JS.includes (Discount.products d) (Product._id p) = true ->
    Discount.type d = Discount.product \/ Discount.type d = Discount.general.

(** ** Sample data *)

Module Ex.

Definition now : Date := 50.

(** A product at 100.00 in the category shoes. *)
Definition shoe : Product.t :=
  Product.mk "p1" "Shoe" "A shoe" 100 "shoes" "/public/uploads/shoe.png" 5 0 0 true 0.

(** A product at 0.125, an amount with three decimals. *)
Definition sample : Product.t :=
  Product.mk "p2" "Sample" "A sample" (1 # 8) "shoes" "/public/uploads/sample.png" 5 0 0 true 0.

(** A product at 0.01. *)
Definition penny : Product.t :=
  Product.mk "p3" "Penny" "A penny" (1 # 100) "sweets" "/public/uploads/penny.png" 5 0 0 true 0.

(** General, 50 percent. *)
Definition half : Discount.t :=
  Discount.mk "dF" "Half" None 50 Discount.general [] [] None 0 100 true 0.

(** General, 10 percent, window 0..100. *)
Definition A : Discount.t :=
  Discount.mk "dA" "A" None 10 Discount.general [] [] None 0 100 true 0.

(** Category shoes, 20 percent, window 0..100. *)
Definition B : Discount.t :=
  Discount.mk "dB" "B" None 20 Discount.category [] ["shoes"] None 0 100 true 0.

(** Product p1, 20 percent, starting in the future. *)
Definition C : Discount.t :=
  Discount.mk "dC" "C" None 20 Discount.product ["p1"] [] None 60 100 true 0.

(** General, 0 percent. *)
Definition zero : Discount.t :=
  Discount.mk "dZ" "Zero" None 0 Discount.general [] [] None 0 100 true 0.

(** Category hats, 50 percent, with the shoe also listed under [products]. *)
Definition hats : Discount.t :=
  Discount.mk "dH" "Hats" None 50 Discount.category ["p1"] ["hats"] None 0 100 true 0.

(** The request that creates [hats]. *)
Definition hats_body : Body.t :=
  Body.mk (Some "Hats") None (Some 50%Q) (Some "category") (Some ["p1"])
    (Some ["hats"]) None (Some 0) (Some 100) None (Some 0).

(** User group vip, 30 percent, with the shoe also listed under [products]. *)
Definition vip_listed : Discount.t :=
  Discount.mk "dL" "Vip listed" None 30 Discount.userGroup_ ["p1"] [] (Some "vip")
    0 100 true 0.

(** The request that creates [vip_listed]. *)
Definition vip_listed_body : Body.t :=
  Body.mk (Some "Vip listed") None (Some 30%Q) (Some "userGroup") (Some ["p1"])
    None (Some "vip") (Some 0) (Some 100) None (Some 0).

(** User group vip, 20 percent. *)
Definition vip : Discount.t :=
  Discount.mk "dV" "Vip" None 20 Discount.userGroup_ [] [] (Some "vip") 0 100 true 0.

(** General, 20 percent. *)
Definition general20 : Discount.t :=
  Discount.mk "dG" "General 20" None 20 Discount.general [] [] None 0 100 true 0.

Definition alice : User.t := User.mk "u1" (Some "vip").

Definition db_A : DB := mkDB [shoe] [alice] [A].
Definition db_AB : DB := mkDB [shoe] [alice] [A; B].
Definition db_ABC : DB := mkDB [shoe] [alice] [A; B; C].
Definition db_zero : DB := mkDB [shoe; sample] [alice] [zero].
Definition db_none : DB := mkDB [shoe] [alice] [].
Definition db_half : DB := mkDB [penny] [alice] [half].
Definition db_hats : DB := mkDB [shoe] [alice] [hats].
Definition db_listed : DB := mkDB [shoe] [alice] [vip_listed].
Definition db_tie : DB := mkDB [shoe] [alice] [vip; general20].

(** The update that moves the end of a window to 10, before [now]. *)
Definition shorten : Body.t :=
  Body.mk None None None None None None None None (Some 10) None None.

(** A well-formed creation request: general, 10 percent, window 0..100. *)
Definition new_A : Body.t :=
  Body.mk (Some "A") None (Some 10%Q) (Some "general") None None None
    (Some 0) (Some 100) None None.

Definition sample_priced : JSObject := reduced_price (Product.price sample) zero.
Definition penny_priced : JSObject := reduced_price (Product.price penny) half.

(** The shoe as the bulk path returns it under [A] and [B]. *)
Definition shoe_bulk : JSObject := DiscountService.priceWith [A; B] None shoe.

(** The lean shoe at address 1. *)
Definition heap1 : Heap := <[1%positive := lean shoe]> ∅.

End Ex.

(** ** The controllers around the service

    A controller answers with [res.status(s).json({success: true, ...})] or
    with [res.status(s).json({success: false, error})]; whatever is thrown
    inside its [try] is answered by its [catch]. *)

Definition message (e : Error) : string :=
  match e with mkError m => m end.

Inductive Reply (A : Type) : Type :=
| Success (status : nat) (body : A)
| Failure (status : nat) (error : string).

Arguments Success {A} status body.
Arguments Failure {A} status error.

(** [try { ... } catch (error) { ... }] *)
Definition try_catch {A} (body : M A) (handler : Error -> M A) : M A :=
  fun db =>
    match body db with
    | (inl e, db') => handler e db'
    | (inr a, db') => (inr a, db')
    end.

(** [Discount.findById(id)] *)
Definition Discount_findById (id : ObjectId) : M (option Discount.t) :=
  fun db =>
    (inr (List.find (fun d => String.eqb (Discount._id d) id) (Discounts db)), db).

(** [Discount.findByIdAndDelete(id)]: the document found is removed. *)
Fixpoint remove_by_id (id : ObjectId) (l : list Discount.t) : list Discount.t :=
  match l with
  | [] => []
  | d :: rest =>
      if String.eqb (Discount._id d) id then rest
      else d :: remove_by_id id rest
  end.

Definition Discount_findByIdAndDelete (id : ObjectId) : M (option Discount.t) :=
  fun db =>
    match List.find (fun d => String.eqb (Discount._id d) id) (Discounts db) with
    | None => (inr None, db)
    | Some d =>
        (inr (Some d), mkDB (Products db) (Users db) (remove_by_id id (Discounts db)))
    end.

(** [Product.findByIdAndUpdate(id, {isActive: b}, {new: true})] *)
Definition with_isActive (b : bool) (p : Product.t) : Product.t :=
  Product.mk (Product._id p) (Product.name p) (Product.description p)
    (Product.price p) (Product.category p) (Product.imageUrl p)
    (Product.stock p) (Product.createdAt p) (Product.updatedAt p) b
    (Product.__v p).

Fixpoint set_isActive_by_id (id : ObjectId) (b : bool) (l : list Product.t)
    : list Product.t :=
  match l with
  | [] => []
  | p :: rest =>
      if String.eqb (Product._id p) id then with_isActive b p :: rest
      else p :: set_isActive_by_id id b rest
  end.

Definition Product_findByIdAndUpdate_isActive (id : ObjectId) (b : bool)
    : M (option Product.t) :=
  fun db =>
    match List.find (fun p => String.eqb (Product._id p) id) (Products db) with
    | None => (inr None, db)
    | Some p =>
        (inr (Some (with_isActive b p)),
         mkDB (set_isActive_by_id id b (Products db)) (Users db) (Discounts db))
    end.

(** The query objects of the discount controller use three more entries. *)
Module Filter.

Inductive cond :=
| of_cond (c : Mongo.cond)
| type_named (s : string)                   (* type: s, s a query parameter *)
| startDate_gt (t : Date)                   (* startDate: {$gt: t} *)
| endDate_lt (t : Date).                    (* endDate: {$lt: t} *)

Record query := mkQuery {
  or_ : option (list (list cond));
  fields : list cond
}.

Definition holds (d : Discount.t) (c : cond) : bool :=
  match c with
  | of_cond c => Mongo.holds d c
  | type_named s => String.eqb (Discount.kind_name (Discount.type d)) s
  | startDate_gt t => t <? Discount.startDate d
  | endDate_lt t => Discount.endDate d <? t
  end.

Definition matches (q : query) (d : Discount.t) : bool :=
  match or_ q with
  | Some clauses => existsb (forallb (holds d)) clauses
  | None => true
  end && forallb (holds d) (fields q).

(** [.sort({createdAt: -1})]: stable, newest first. *)
Fixpoint insert_newest (d : Discount.t) (l : list Discount.t) : list Discount.t :=
  match l with
  | [] => [d]
  | x :: xs =>
      if Discount.createdAt d <? Discount.createdAt x
      then x :: insert_newest d xs
      else d :: x :: xs
  end.

Definition sort_createdAt_desc (l : list Discount.t) : list Discount.t :=
  foldr insert_newest [] l.

(** [Discount.find(query).sort({createdAt: -1})] *)
Definition find_newest_first (q : query) : M (list Discount.t) :=
  fun db => (inr (sort_createdAt_desc (List.filter (matches q) (Discounts db))), db).

End Filter.

(** *** controllers/discountController *)

Module DiscountController.

Definition createDiscount (newId : ObjectId) (now : Date) (body : Body.t)
    : M (Reply Discount.t) :=
  try_catch
    (await discount := DiscountService.createDiscount newId now body in
     ret (Success 201 discount))
    (fun error => ret (Failure 400 (message error))).

Definition updateDiscount (id : ObjectId) (body : Body.t)
    : M (Reply (option Discount.t)) :=
  try_catch
    (await discount := DiscountService.updateDiscount id body in
     ret (Success 200 discount))
    (fun error => ret (Failure 400 (message error))).

(** [active] and [type] are the query parameters, absent or strings. *)
Definition getAllDiscounts (now : Date) (active type : option string)
    : M (Reply (list Discount.t)) :=
  try_catch
    (let query := Filter.mkQuery None [] in
     let query :=
       match JS.truthy type with
       | Some t => Filter.mkQuery (Filter.or_ query)
                     (Filter.fields query ++ [Filter.type_named t])
       | None => query
       end in
     let query :=
       match JS.truthy active with
       | Some a =>
           if String.eqb a "true" then
             Filter.mkQuery (Filter.or_ query)
               (Filter.fields query
                ++ [Filter.of_cond (Mongo.active_is true);
                    Filter.of_cond (Mongo.startDate_lte now);
                    Filter.of_cond (Mongo.endDate_gte now)])
           else if String.eqb a "false" then
             Filter.mkQuery
               (Some [ [Filter.of_cond (Mongo.active_is false)];
                       [Filter.startDate_gt now];
                       [Filter.endDate_lt now] ])
               (Filter.fields query)
           else query
       | None => query
       end in
     await discounts := Filter.find_newest_first query in
     ret (Success 200 discounts))
    (fun error => ret (Failure 500 (message error))).

Definition getDiscountById (id : ObjectId) : M (Reply Discount.t) :=
  try_catch
    (await discount := Discount_findById id in
     match discount with
     | None => ret (Failure 404 "Discount not found")
     | Some discount => ret (Success 200 discount)
     end)
    (fun error => ret (Failure 500 (message error))).

Definition deleteDiscount (id : ObjectId) : M (Reply string) :=
  try_catch
    (await discount := Discount_findByIdAndDelete id in
     match discount with
     | None => ret (Failure 404 "Discount not found")
     | Some _ => ret (Success 200 "Discount deleted successfully")
     end)
    (fun error => ret (Failure 500 (message error))).


End DiscountController.

(** *** controllers/productController *)

Module ProductController.

(** [{...product, ...discountInfo}]: the properties of [discountInfo] win. *)
Definition getProductById (now : Date) (id : ObjectId) (userId : option ObjectId)
    : M (Reply JSObject) :=
  try_catch
    (await product := Product_findById id in
     match product with
     | None => ret (Failure 404 "Product not found")
     | Some product =>
         if negb (Product.isActive product)
         then ret (Failure 404 "Product not found")
         else
           await discountInfo :=
             DiscountService.calculateProductDiscount now (Product._id product) userId in
           ret (Success 200 (discountInfo ∪ lean product))
     end)
    (fun error => ret (Failure 500 (message error))).

Definition deleteProduct (id : ObjectId) : M (Reply string) :=
  try_catch
    (await product := Product_findByIdAndUpdate_isActive id false in
     match product with
     | None => ret (Failure 404 "Product not found")
     | Some _ => ret (Success 200 "Product deactivated successfully")
     end)
    (fun error => ret (Failure 500 (message error))).

Definition restoreProduct (id : ObjectId) : M (Reply JSObject) :=
  try_catch
    (await product := Product_findByIdAndUpdate_isActive id true in
     match product with
     | None => ret (Failure 404 "Product not found")
     | Some product => ret (Success 200 (lean product))
     end)
    (fun error => ret (Failure 500 (message error))).

End ProductController.

(** *** controllers/cartController *)

Module CartController.

(** What [calculateCartTotals] reads of a cart item; [discountedPrice] may
    be absent. *)
Record item := mkItem {
  product : ObjectId;
  quantity : Q;
  originalPrice : Q;
  discountedPrice : option Q
}.

Record totals := mkTotals {
  items : list item;
  totalItems : Q;
  totalPrice : Q;
  totalDiscount : Q
}.

(** [item.discountedPrice || item.originalPrice]: an absent or zero
    discounted price is falsy. *)
Definition charged (i : item) : Q :=
  match discountedPrice i with
  | Some d => if Qeq_bool d 0 then originalPrice i else d
  | None => originalPrice i
  end.

Definition calculateCartTotals (cart : list item) : totals :=
  let '(totalItems, totalOriginalPrice, totalDiscountedPrice) :=
    fold_left (fun '(totalItems, totalOriginalPrice, totalDiscountedPrice) item =>
        ((totalItems + quantity item)%Q,
         (totalOriginalPrice + originalPrice item * quantity item)%Q,
         (totalDiscountedPrice + charged item * quantity item)%Q))
      cart (0%Q, 0%Q, 0%Q) in
  let totalDiscount := (totalOriginalPrice - totalDiscountedPrice)%Q in
  mkTotals cart totalItems
    (JS.parseFloat (JS.toFixed2 totalDiscountedPrice))
    (JS.parseFloat (JS.toFixed2 totalDiscount)).

End CartController.

(** ** Notions used in the further statements *)

(** Sums over a cart. *)
Definition sum_over (f : CartController.item -> Q) (cart : list CartController.item) : Q :=
  fold_right (fun i acc => (f i + acc)%Q) 0%Q cart.

(** Percentages do not increase along the list. *)
Definition descending (l : list Discount.t) : Prop :=
  forall i j a b, (i <= j)%nat -> l !! i = Some a -> l !! j = Some b ->
    (Discount.percentage b <= Discount.percentage a)%Q.

(** Every stored discount has its percentage within [0, 100]. *)
Definition percentages_in_range (db : DB) : Prop :=
  forall d, In d (Discounts db) ->
    (0 <= Discount.percentage d <= 100)%Q.

(** A cart of at most 1000 lines, with whole quantities, no negative
    amount and totals of at most 10^9: the rounding errors of the doubles
    that [calculateCartTotals] adds up then stay far below a cent. *)
Definition cart_moderate (cart : list CartController.item) : Prop :=
  (length cart <= 1000)%nat
  /\ (forall i, In i cart ->
        (exists n : Z, 0 <= n /\ (CartController.quantity i == inject_Z n)%Q)
        /\ (0 <= CartController.originalPrice i)%Q
        /\ (forall d, CartController.discountedPrice i = Some d -> (0 <= d)%Q))
  /\ (sum_over CartController.quantity cart <= inject_Z (10 ^ 9))%Q
  /\ (sum_over (fun i => CartController.originalPrice i * CartController.quantity i) cart
      <= inject_Z (10 ^ 9))%Q
  /\ (sum_over (fun i => CartController.charged i * CartController.quantity i) cart
      <= inject_Z (10 ^ 9))%Q.




(** No two stored discounts share an id. *)
Definition unique_ids (db : DB) : Prop :=
  NoDup (map Discount._id (Discounts db)).

(** Further sample data. *)
Module Ex2.

Definition cart : list CartController.item :=
  [ CartController.mkItem "p1" 2 100 (Some (8000 # 100));
    CartController.mkItem "p3" 3 (1 # 100) None ].

(** General, 100 percent, and the shoe priced under it. *)
Definition free : Discount.t :=
  Discount.mk "dX" "Free" None 100 Discount.general [] [] None 0 100 true 0.

Definition db_free : DB := mkDB [Ex.shoe] [Ex.alice] [free].

Definition shoe_free : JSObject := reduced_price (Product.price Ex.shoe) free.

(** A creation request with a percentage of 150. *)
Definition too_much : Body.t :=
  Body.mk (Some "Too much") None (Some 150%Q) (Some "general") None None None
    (Some 0) (Some 100) None None.


(** An update that only renames. *)
Definition rename : Body.t :=
  Body.mk (Some "Renamed") None None None None None None None None None None.

(** The shoe, deactivated. *)
Definition db_inactive : DB :=
  mkDB [with_isActive false Ex.shoe] [Ex.alice] [Ex.A; Ex.B].

End Ex2.

(** * Properties *)

(** ** Rounding *)

Section Rounding.

Local Open Scope Q_scope.

Lemma Qfloor_unique (x : Q) (z : Z) :
  inject_Z z <= x -> x < inject_Z (z + 1) -> Qfloor x = z.
Proof.
  intros Hlo Hhi.
  pose proof (Qfloor_le x) as Hf1.
  pose proof (Qlt_floor x) as Hf2.
  assert (H1 : inject_Z (Qfloor x) < inject_Z (z + 1)) by lra.
  assert (H2 : inject_Z z < inject_Z (Qfloor x + 1)) by lra.
  rewrite <- Zlt_Qlt in H1, H2. lia.
Qed.

Lemma Qfloor_half (y : Q) (k : Z) :
  y == inject_Z k -> Qfloor (y + (1 # 2)) = k.
Proof.
  intros Hy. apply Qfloor_unique; [lra|].
  rewrite inject_Z_plus. change (inject_Z 1) with 1. lra.
Qed.

Lemma Math_round_Z (y : Q) (k : Z) :
  y == inject_Z k -> JS.Math_round y = inject_Z k.
Proof. intros Hy. unfold JS.Math_round. f_equal. by apply Qfloor_half. Qed.

Lemma Math_round_mono (x y : Q) :
  x <= y -> JS.Math_round x <= JS.Math_round y.
Proof.
  intros Hxy. unfold JS.Math_round. rewrite <- Zle_Qle.
  apply Qfloor_resp_le. lra.
Qed.

Lemma Math_round_nonneg (y : Q) : 0 <= y -> 0 <= JS.Math_round y.
Proof.
  intros Hy. change 0 with (inject_Z 0). unfold JS.Math_round.
  rewrite <- Zle_Qle. change 0%Z with (Qfloor 0).
  apply Qfloor_resp_le. lra.
Qed.

Lemma Math_round_comp (x y : Q) : x == y -> JS.Math_round x = JS.Math_round y.
Proof.
  intros Hxy. unfold JS.Math_round. f_equal. apply Qfloor_comp. lra.
Qed.

Lemma discounted_comp (x p q : Q) : p == q -> discounted x p = discounted x q.
Proof.
  intros Hpq. unfold discounted. f_equal. apply Math_round_comp.
  rewrite Hpq. reflexivity.
Qed.

Lemma round2_nonneg (y : Q) :
  0 <= y -> round2 y = inject_Z (Qfloor (y * 100 + (1 # 2))) / 100.
Proof.
  intros Hy. unfold round2.
  destruct (Qle_bool 0 y) eqn:E; [done|].
  apply Qle_bool_iff in Hy. congruence.
Qed.

Lemma discounted_round2 (x p : Q) :
  0 <= x -> p <= 100 -> discounted x p == round2 (x * (100 - p) / 100).
Proof.
  intros Hx Hp.
  rewrite round2_nonneg.
  - unfold discounted, JS.Math_round.
    assert (E : x * ((100 - p) / 100) * 100 + (1 # 2)
                == x * (100 - p) / 100 * 100 + (1 # 2)) by (field).
    rewrite (Qfloor_comp _ _ E). reflexivity.
  - assert (0 <= x * (100 - p)) by nra. 
    apply Qle_shift_div_l; lra.
Qed.

Lemma discounted_nonneg (x p : Q) :
  0 <= x -> p <= 100 -> 0 <= discounted x p.
Proof.
  intros Hx Hp. unfold discounted.
  apply Qle_shift_div_l; [lra|].
  rewrite Qmult_0_l. apply Math_round_nonneg.
  assert (0 <= (100 - p) / 100) by (apply Qle_shift_div_l; lra).
  nra.
Qed.

Lemma discounted_le_round2 (x p : Q) :
  0 <= x -> 0 <= p -> discounted x p <= round2 x.
Proof.
  intros Hx Hp. rewrite round2_nonneg by done.
  unfold discounted.
  apply Qmult_le_compat_r; [|discriminate].
  apply Math_round_mono.
  assert ((100 - p) / 100 <= 1) by (apply Qle_shift_div_r; lra).
  nra.
Qed.

Lemma round2_whole_cents (x : Q) : 0 <= x -> whole_cents x -> round2 x == x.
Proof.
  intros Hx [k Hk]. rewrite round2_nonneg by done.
  rewrite (Qfloor_half (x * 100) k).
  - lra.
  - rewrite Hk. field.
Qed.

Lemma discounted_le (x p : Q) :
  0 <= x -> 0 <= p -> whole_cents x -> discounted x p <= x.
Proof.
  intros Hx Hp Hc.
  rewrite <- (round2_whole_cents x Hx Hc) at 2.
  by apply discounted_le_round2.
Qed.

Lemma whole_cents_opp (x : Q) : whole_cents x -> whole_cents (- x).
Proof.
  intros [k Hk]. exists (- k)%Z. rewrite Hk, inject_Z_opp. field.
Qed.

Lemma whole_cents_discounted (x p : Q) : whole_cents (discounted x p).
Proof.
  unfold discounted, JS.Math_round.
  by exists (Qfloor (x * ((100 - p) / 100) * 100 + (1 # 2))).
Qed.

Lemma whole_cents_minus (x y : Q) :
  whole_cents x -> whole_cents y -> whole_cents (x - y).
Proof.
  intros [k Hk] [j Hj]. exists (k - j)%Z.
  rewrite Hk, Hj. unfold Zminus. rewrite inject_Z_plus, inject_Z_opp. field.
Qed.

Lemma toFixed2_nonneg_cents (a : Q) :
  0 <= a -> whole_cents a ->
  (if Qle_bool (inject_Z (10 ^ 21)) a then a
   else inject_Z (Qfloor (a * 100 + (1 # 2))) / 100) == a.
Proof.
  intros Ha [k Hk].
  destruct (Qle_bool (inject_Z (10 ^ 21)) a); [reflexivity|].
  rewrite (Qfloor_half (a * 100) k).
  - lra.
  - rewrite Hk. field.
Qed.

Lemma toFixed2_whole_cents (a : Q) : whole_cents a -> JS.toFixed2 a == a.
Proof.
  intros Hc. unfold JS.toFixed2.
  destruct (Qle_bool 0 a) eqn:E; simpl.
  - apply Qle_bool_iff in E. by apply toFixed2_nonneg_cents.
  - assert (Hneg : ~ 0 <= a) by (rewrite <- Qle_bool_iff; congruence).
    rewrite toFixed2_nonneg_cents.
    + lra.
    + lra.
    + by apply whole_cents_opp.
Qed.

Lemma toFixed2_round2 (y : Q) :
  Qabs y < inject_Z (10 ^ 21) -> JS.toFixed2 y = round2 y.
Proof.
  intros Hy. unfold JS.toFixed2, round2.
  apply Qabs_Qlt_condition in Hy. destruct Hy as [Hlo Hhi].
  destruct (Qle_bool 0 y) eqn:E; simpl.
  - destruct (Qle_bool (inject_Z (10 ^ 21)) y) eqn:F; [|done].
    apply Qle_bool_iff in F. lra.
  - destruct (Qle_bool (inject_Z (10 ^ 21)) (- y)) eqn:F; [|done].
    apply Qle_bool_iff in F. lra.
Qed.

Lemma Math_round_close (y : Q) : Qabs (JS.Math_round y - y) <= 1 # 2.
Proof.
  unfold JS.Math_round.
  pose proof (Qfloor_le (y + (1 # 2))) as H1.
  pose proof (Qlt_floor (y + (1 # 2))) as H2.
  rewrite inject_Z_plus in H2. change (inject_Z 1) with 1 in H2.
  apply Qabs_Qle_condition. split; lra.
Qed.

Lemma cents_close (r t : Q) :
  Qabs (r - t * 100) <= 1 # 2 -> Qabs (r / 100 - t) <= 1 # 200.
Proof.
  intros H. apply Qabs_Qle_condition in H. destruct H as [H1 H2].
  apply Qabs_Qle_condition.
  assert (E : r / 100 - t == (r - t * 100) * (1 # 100)) by field.
  rewrite E. split; lra.
Qed.

(** The discounted price lies within half a cent of the exact product. *)
Lemma discounted_close (x p : Q) :
  Qabs (discounted x p - x * (100 - p) / 100) <= 1 # 200.
Proof.
  unfold discounted. apply cents_close.
  assert (E : x * (100 - p) / 100 * 100 == x * ((100 - p) / 100) * 100) by field.
  rewrite E. apply Math_round_close.
Qed.

Lemma round2_close (y : Q) : Qabs (round2 y - y) <= 1 # 200.
Proof.
  unfold round2. destruct (Qle_bool 0 y).
  - apply cents_close. apply (Math_round_close (y * 100)).
  - pose proof (cents_close _ (- y) (Math_round_close (- y * 100))) as H.
    apply Qabs_Qle_condition in H. destruct H as [H1 H2].
    apply Qabs_Qle_condition.
    unfold JS.Math_round in H1, H2. split; lra.
Qed.

Lemma whole_cents_near (x : Q) : whole_cents x -> near_cents x.
Proof.
  intros [k Hk]. exists k. apply Qabs_Qlt_condition. rewrite Hk. split; lra.
Qed.

Lemma round2_cents (y : Q) : whole_cents (round2 y).
Proof.
  unfold round2. destruct (Qle_bool 0 y).
  - by eexists.
  - exists (- Qfloor (- y * 100 + (1 # 2)))%Z. rewrite inject_Z_opp. field.
Qed.

(** Below the 10^21 from which [toFixed] prints in exponent notation, it
    moves a number by at most half a cent. *)
Lemma toFixed2_close (y : Q) :
  Qabs y < inject_Z (10 ^ 21) -> Qabs (JS.toFixed2 y - y) <= 1 # 200.
Proof. intros Hy. rewrite (toFixed2_round2 y Hy). apply round2_close. Qed.

Lemma saved_close (x p : Q) :
  moderate x -> 0 <= p <= 100 ->
  Qabs (saved x p - (x - discounted x p)) <= 1 # 200
  /\ near_cents (saved x p).
Proof.
  intros [Hx0 Hx1] [Hp0 Hp1].
  pose proof (discounted_nonneg x p Hx0 Hp1) as Hd0.
  pose proof (discounted_close x p) as Hc.
  apply Qabs_Qle_condition in Hc. destruct Hc as [_ Hc].
  assert (Hy : x * (100 - p) / 100 <= x).
  { apply Qle_shift_div_r; [reflexivity|]. nra. }
  assert (H12 : inject_Z (10 ^ 12) + 1 < inject_Z (10 ^ 21)) by reflexivity.
  assert (Hsmall : Qabs (x - discounted x p) < inject_Z (10 ^ 21))
    by (apply Qabs_Qlt_condition; split; lra).
  unfold saved, JS.parseFloat. split.
  - by apply toFixed2_close.
  - rewrite (toFixed2_round2 _ Hsmall). apply whole_cents_near, round2_cents.
Qed.

Lemma saved_whole_cents (x p : Q) :
  0 <= x -> 0 <= p -> whole_cents x ->
  saved x p == x - discounted x p /\ 0 <= saved x p.
Proof.
  intros Hx Hp Hc.
  assert (E : saved x p == x - discounted x p).
  { unfold saved, JS.parseFloat. apply toFixed2_whole_cents.
    apply whole_cents_minus; [done | apply whole_cents_discounted]. }
  split; [done|].
  rewrite E. pose proof (discounted_le x p Hx Hp Hc). lra.
Qed.

End Rounding.

(** On doubles the samples come out as on the rationals: at a price of
    0.125 and a percentage of 0 the discounted price is the double 0.13,
    above the price, and the saved amount is the double -0.01; at a price
    of 100 and a percentage of 20 they are 80 and 20; at a price of 0.01
    and a percentage of 50 they are 0.01 and 0, while the difference to the
    unrounded reduced price rounds to 0.01. *)
Lemma Binary64_samples :
  let x := Binary64.div (Binary64.of_Z 1) (Binary64.of_Z 8) in
  (Binary64.value x == 1 # 8)%Q
  /\ Binary64.discounted x (Binary64.of_Z 0)
     = Binary64.div (Binary64.of_Z 13) (Binary64.of_Z 100)
  /\ SFcompare (Binary64.discounted x (Binary64.of_Z 0)) x = Some Gt
  /\ Binary64.saved x (Binary64.of_Z 0)
     = Binary64.div (Binary64.of_Z (-1)) (Binary64.of_Z 100)
  /\ SFcompare (Binary64.saved x (Binary64.of_Z 0)) (Binary64.of_Z 0) = Some Lt
  /\ Binary64.discounted (Binary64.of_Z 100) (Binary64.of_Z 20) = Binary64.of_Z 80
  /\ Binary64.saved (Binary64.of_Z 100) (Binary64.of_Z 20) = Binary64.of_Z 20
  /\ let y := Binary64.div (Binary64.of_Z 1) (Binary64.of_Z 100) in
     Binary64.discounted y (Binary64.of_Z 50) = y
     /\ Binary64.saved y (Binary64.of_Z 50) = S754_zero false
     /\ Binary64.toFixed2
          (Binary64.sub y
             (Binary64.div
                (Binary64.mul y (Binary64.sub (Binary64.of_Z 100) (Binary64.of_Z 50)))
                (Binary64.of_Z 100))) = y.
Proof. intros x. repeat split; by vm_compute. Qed.

(** Where the doubles leave the rationals.  At a price of 12.5 and a
    percentage of 43 the product in cents is a tie in exact arithmetic
    (712.5, which rounds to 713) and falls just below it on doubles: the
    discounted price is the double 7.12 and the saved amount the double
    5.38.  At a price of 1000000000000000.25, above the moderate range, a
    percentage of 0 gives a discounted price of 1000000000000000.375 and
    the saved amount -0.13; at 999999999999.75, at the upper end of the
    moderate range, a percentage of 0 still gives back the price and a
    saved amount of 0, and a percentage of 43 a lower price and a positive
    saved amount. *)
Lemma Binary64_margins :
  (let x := Binary64.div (Binary64.of_Z 25) (Binary64.of_Z 2) in
   Binary64.discounted x (Binary64.of_Z 43)
   = Binary64.div (Binary64.of_Z 712) (Binary64.of_Z 100)
   /\ Binary64.saved x (Binary64.of_Z 43)
      = Binary64.div (Binary64.of_Z 538) (Binary64.of_Z 100))
  /\ (let x := Binary64.div (Binary64.of_Z 3999999999999) (Binary64.of_Z 4) in
      (Binary64.value x == 3999999999999 # 4)%Q
      /\ Binary64.discounted x (Binary64.of_Z 0) = x
      /\ Binary64.saved x (Binary64.of_Z 0) = S754_zero false
      /\ SFcompare (Binary64.discounted x (Binary64.of_Z 43)) x = Some Lt
      /\ SFcompare (Binary64.saved x (Binary64.of_Z 43)) (Binary64.of_Z 0) = Some Gt)
  /\ (let x := Binary64.div (Binary64.of_Z 4000000000000001) (Binary64.of_Z 4) in
      (Binary64.value x == 4000000000000001 # 4)%Q
      /\ (Binary64.value (Binary64.discounted x (Binary64.of_Z 0))
          == 8000000000000003 # 8)%Q
      /\ Binary64.saved x (Binary64.of_Z 0)
         = Binary64.div (Binary64.of_Z (-13)) (Binary64.of_Z 100)).
Proof. repeat split; by vm_compute. Qed.

(** On doubles the margins hold at the sample inputs: for prices of whole
    cents, for prices with twenty binary digits after the point, and for
    prices that end in half a cent. *)
Lemma Binary64_margins_sampled :
  forallb (fun r => Margins.in_cents (Margins.amount_of r)
                      (Margins.percentage_of (r / 64))) Margins.samples = true
  /\ forallb (fun r => Margins.general
                         (Margins.quotient (Margins.amount_of r) (2 ^ 20))
                         (Margins.percentage_of (r / 64))) Margins.samples = true
  /\ forallb (fun r => Margins.general
                         (Margins.quotient (Margins.amount_of r * 10 + 5) 1000)
                         (Margins.percentage_of (r / 64))) Margins.samples = true.
Proof. split; [|split]; vm_compute; reflexivity. Qed.

(** ** Running the queries *)

Section Queries.

Import Mongo DiscountService.

Lemma eqb_true_r (b : bool) : Bool.eqb b true = b.
Proof. by destruct b. Qed.

Lemma includes_remove_dups (l : list string) (x : string) :
  JS.includes (remove_dups l) x = JS.includes l x.
Proof.
  unfold JS.includes. apply eq_true_iff_eq.
  rewrite !existsb_exists.
  split; intros (y & Hy & E); exists y; (split; [|done]);
    rewrite <- list_elem_of_In in *.
  - by rewrite elem_of_remove_dups in Hy.
  - by rewrite elem_of_remove_dups.
Qed.

Lemma includes_In (l : list string) (x : string) :
  JS.includes l x = true <-> In x l.
Proof.
  unfold JS.includes. rewrite existsb_exists. split.
  - intros (y & Hy & E). apply String.eqb_eq in E. by subst.
  - intros H. exists x. split; [done|]. apply String.eqb_refl.
Qed.

Lemma getApplicableDiscounts_run now productId userId db p :
  product_of db productId = Some p ->
  getApplicableDiscounts now productId userId db
  = (inr (sort_percentage_desc
            (List.filter (fun d =>
               single_or productId (Product.category p) (group_of db userId) d
               && live now d) (Discounts db))), db).
Proof.
  intros Hp.
  unfold getApplicableDiscounts, bind, Product_findById.
  fold (product_of db productId). rewrite Hp.
  unfold group_of, User_findById, Discount_find_sorted.
  destruct (JS.truthy userId) as [uid|]; simpl.
  2: { f_equal. f_equal. f_equal. apply filter_ext. intros d.
       unfold matches, single_or, live, in_window, JS.includes. simpl.
       rewrite eqb_true_r, !andb_true_r, !orb_false_r.
       by rewrite !orb_assoc, !andb_assoc. }
  destruct (List.find _ (Users db)) as [user|]; simpl.
  2: { f_equal. f_equal. f_equal. apply filter_ext. intros d.
       unfold matches, single_or, live, in_window, JS.includes. simpl.
       rewrite eqb_true_r, !andb_true_r, !orb_false_r.
       by rewrite !orb_assoc, !andb_assoc. }
  destruct (JS.truthy (User.userGroup user)) as [g|]; simpl.
  2: { f_equal. f_equal. f_equal. apply filter_ext. intros d.
       unfold matches, single_or, live, in_window, JS.includes. simpl.
       rewrite eqb_true_r, !andb_true_r, !orb_false_r.
       by rewrite !orb_assoc, !andb_assoc. }
  f_equal. f_equal. f_equal. apply filter_ext. intros d.
  unfold matches, single_or, live, in_window, has_group, JS.includes. simpl.
  rewrite eqb_true_r, !andb_true_r, !orb_false_r.
  by rewrite !orb_assoc, !andb_assoc.
Qed.

Lemma getApplicableDiscounts_missing now productId userId db :
  product_of db productId = None ->
  getApplicableDiscounts now productId userId db
  = (inl (mkError "Product not found"), db).
Proof.
  intros Hp. unfold getApplicableDiscounts, bind, Product_findById.
  fold (product_of db productId). by rewrite Hp.
Qed.

Lemma existsb_ext_eq {A} (f g : A -> bool) (l : list A) :
  (forall a, f a = g a) -> existsb f l = existsb g l.
Proof. intros E. induction l as [|a l IH]; simpl; [done|]. by rewrite E, IH. Qed.

Lemma applyBulkDiscounts_run now products userId db :
  applyBulkDiscounts now products userId db
  = (inr (map (priceWith (pool now products (group_of db userId) db) userId)
            products), db).
Proof.
  assert (Hall : List.filter
            (matches
               (mkQuery
                  (Some [ [products_in (map Product._id products)];
                          [type_is Discount.category;
                           categories_in (remove_dups (map Product.category products))];
                          [type_is Discount.general] ])
                  [startDate_lte now; endDate_gte now; active_is true]))
            (Discounts db)
          = List.filter (fun d =>
              (existsb (fun x => JS.includes (map Product._id products) x)
                 (Discount.products d)
               || (Discount.kind_eqb (Discount.type d) Discount.category
                   && existsb (fun x => JS.includes (map Product.category products) x)
                        (Discount.categories d))
               || Discount.kind_eqb (Discount.type d) Discount.general)
              && live now d) (Discounts db)).
  { apply filter_ext. intros d.
    unfold matches, live, in_window. simpl.
    rewrite eqb_true_r, !andb_true_r, !orb_false_r.
    rewrite (existsb_ext_eq
               (fun x => existsb (String.eqb x)
                           (remove_dups (map Product.category products)))
               (fun x => JS.includes (map Product.category products) x))
      by (intros a; apply includes_remove_dups).
    by rewrite !orb_assoc, !andb_assoc. }
  unfold applyBulkDiscounts, bind, Discount_find, pool, group_of, User_findById, ret.
  rewrite Hall.
  destruct (JS.truthy userId) as [uid|]; simpl; [|done].
  destruct (List.find _ (Users db)) as [user|]; simpl; [|done].
  destruct (JS.truthy (User.userGroup user)) as [g|]; simpl; [|done].
  do 5 f_equal. apply filter_ext. intros d.
  unfold matches, live, in_window, has_group. simpl.
  rewrite eqb_true_r, !andb_true_r.
  by rewrite !andb_assoc.
Qed.

End Queries.

(** ** Choosing the best discount *)

Section Best.

Import Mongo DiscountService.
Local Open Scope Q_scope.

Lemma gt_false_le (a b : Q) : JS.gt a b = false -> a <= b.
Proof.
  unfold JS.gt. intros H. apply negb_false_iff in H. by apply Qle_bool_iff.
Qed.

Lemma gt_true_lt (a b : Q) : JS.gt a b = true -> b < a.
Proof.
  unfold JS.gt. intros H. apply negb_true_iff in H.
  apply Qnot_le_lt. rewrite <- Qle_bool_iff. congruence.
Qed.

Lemma In_insert_desc d x l : In x (insert_desc d l) <-> x = d \/ In x l.
Proof.
  induction l as [|y l IH]; simpl; [intuition congruence|].
  destruct (JS.gt _ _); simpl; rewrite ?IH; intuition congruence.
Qed.

Lemma In_sort_percentage_desc x l : In x (sort_percentage_desc l) <-> In x l.
Proof.
  induction l as [|d l IH]; simpl; [tauto|].
  rewrite In_insert_desc, IH. intuition congruence.
Qed.

Lemma head_insert_desc d l :
  exists b, head (insert_desc d l) = Some b
    /\ Discount.percentage d <= Discount.percentage b
    /\ (forall b', head l = Some b' ->
          Discount.percentage b' <= Discount.percentage b).
Proof.
  destruct l as [|x l]; simpl.
  - exists d. split; [done|]. split; [lra | done].
  - destruct (JS.gt _ _) eqn:E; simpl.
    + exists x. split; [done|]. apply gt_true_lt in E.
      split; [lra|]. intros b' [= <-]. lra.
    + exists d. split; [done|]. apply gt_false_le in E.
      split; [lra|]. by intros b' [= <-].
Qed.

(** The head of the sorted result has the highest percentage. *)
Lemma head_sort_is_best l b :
  head (sort_percentage_desc l) = Some b -> is_best l b.
Proof.
  intros Hb. split.
  - apply In_sort_percentage_desc. by destruct (sort_percentage_desc l); simplify_eq/=; left.
  - revert b Hb. induction l as [|d l IH]; intros b Hb d' Hd'; [done|].
    simpl in Hb.
    destruct (head_insert_desc d (sort_percentage_desc l)) as (b0 & Hb0 & Hd & Hl).
    rewrite Hb in Hb0. injection Hb0 as <-.
    destruct Hd' as [<- | Hd']; [done|].
    destruct (head (sort_percentage_desc l)) as [b'|] eqn:Hh.
    + specialize (IH b' eq_refl d' Hd'). specialize (Hl b' eq_refl). lra.
    + destruct (sort_percentage_desc l) eqn:Hs; [|done].
      apply In_sort_percentage_desc in Hd'. rewrite Hs in Hd'. done.
Qed.

Lemma head_sort_nil l : head (sort_percentage_desc l) = None <-> l = [].
Proof.
  split; [|by intros ->].
  destruct l as [|d l]; [done|]. simpl.
  destruct (head_insert_desc d (sort_percentage_desc l)) as (b & -> & _). done.
Qed.

Lemma fold_max_is_best rest d0 :
  is_best (d0 :: rest)
    (fold_left (fun max d =>
       if JS.gt (Discount.percentage d) (Discount.percentage max)
       then d else max) rest d0).
Proof.
  assert (H : forall acc (seen : list Discount.t),
             In acc seen ->
             (forall d', In d' seen -> Discount.percentage d' <= Discount.percentage acc) ->
             is_best (seen ++ rest)
               (fold_left (fun max d =>
                  if JS.gt (Discount.percentage d) (Discount.percentage max)
                  then d else max) rest acc)).
  { induction rest as [|x rest IH]; intros acc seen Hin Hmax; simpl.
    - rewrite app_nil_r. by split.
    - replace (seen ++ x :: rest) with ((seen ++ [x]) ++ rest)
        by (by rewrite <- app_assoc).
      destruct (JS.gt _ _) eqn:E; apply IH.
      + apply in_or_app. right. by left.
      + intros d' Hd'. apply in_app_or in Hd'. apply gt_true_lt in E.
        destruct Hd' as [Hd' | [<- | []]]; [|lra].
        specialize (Hmax d' Hd'). lra.
      + apply in_or_app. by left.
      + intros d' Hd'. apply in_app_or in Hd'. apply gt_false_le in E.
        destruct Hd' as [Hd' | [<- | []]]; [|lra].
        by apply Hmax. }
  apply (H d0 [d0]).
  - by left.
  - intros d' [<- | []]. lra.
Qed.

Lemma reduce_max_is_best l b : reduce_max l = Some b -> is_best l b.
Proof.
  destruct l as [|d0 rest]; [done|]. simpl. intros [= <-].
  apply fold_max_is_best.
Qed.

Lemma reduce_max_nil l : reduce_max l = None <-> l = [].
Proof. destruct l; simpl; split; done. Qed.

(** Two best elements of lists with the same members have equal percentages. *)
Lemma is_best_percentage l1 l2 b1 b2 :
  (forall d, In d l1 <-> In d l2) ->
  is_best l1 b1 -> is_best l2 b2 ->
  Discount.percentage b1 == Discount.percentage b2.
Proof.
  intros Hm [Hi1 Hb1] [Hi2 Hb2].
  apply Hm in Hi1 as Hi1'. apply Hm in Hi2 as Hi2'.
  specialize (Hb1 b2 Hi2'). specialize (Hb2 b1 Hi1'). lra.
Qed.

Lemma is_best_ext l1 l2 b :
  (forall d, In d l1 <-> In d l2) -> is_best l1 b -> is_best l2 b.
Proof.
  intros Hm [Hin Hmax]. split; [by apply Hm|].
  intros d' Hd'. apply Hmax. by apply Hm.
Qed.

End Best.

(** ** The two pricing paths, run *)

Section Pricing.

Import Mongo DiscountService.

Lemma calculateProductDiscount_run now productId userId db p :
  product_of db productId = Some p ->
  calculateProductDiscount now productId userId db
  = (inr (pricing (Product.price p)
            (head (sort_percentage_desc
               (List.filter (fun d =>
                  single_or productId (Product.category p) (group_of db userId) d
                  && live now d) (Discounts db))))), db).
Proof.
  intros Hp.
  unfold calculateProductDiscount, bind at 1, Product_findById.
  fold (product_of db productId). rewrite Hp.
  unfold calculateBestDiscount, bind.
  rewrite (getApplicableDiscounts_run _ _ _ _ _ Hp).
  unfold ret. by destruct (head _).
Qed.

Lemma calculateProductDiscount_missing now productId userId db :
  product_of db productId = None ->
  calculateProductDiscount now productId userId db
  = (inl (mkError "Product not found"), db).
Proof.
  intros Hp. unfold calculateProductDiscount, bind, Product_findById.
  fold (product_of db productId). by rewrite Hp.
Qed.

Lemma calculateBestDiscount_run now productId userId db p :
  product_of db productId = Some p ->
  calculateBestDiscount now productId userId db
  = (inr (head (sort_percentage_desc
               (List.filter (fun d =>
                  single_or productId (Product.category p) (group_of db userId) d
                  && live now d) (Discounts db)))), db).
Proof.
  intros Hp. unfold calculateBestDiscount, bind.
  by rewrite (getApplicableDiscounts_run _ _ _ _ _ Hp).
Qed.

(** On the pricing properties the bulk callback agrees with [pricing]. *)
Lemma priceWith_lookup combined userId p k :
  In k pricing_fields ->
  priceWith combined userId p !! k
  = pricing (Product.price p) (reduce_max (productDiscounts combined userId p)) !! k.
Proof.
  intros Hk. unfold priceWith.
  destruct (reduce_max _) as [b|]; simpl;
    unfold reduced_price, plain_price, saved, discounted;
    repeat (destruct Hk as [<- | Hk]; [by simplify_map_eq|]); destruct Hk.
Qed.

End Pricing.

(** ** What a priced result looks like *)

Section Shape.

Import Mongo DiscountService.
Local Open Scope Q_scope.

(** Either path yields, on the pricing properties, [pricing] of the
    product's price and of the discount it selected. *)
Lemma priced_shape now db userId p o :
  priced now db userId p o ->
  exists best, forall k, In k pricing_fields ->
    o !! k = pricing (Product.price p) best !! k.
Proof.
  intros [productId Hp Ho | products l i Hi Hl Ho].
  - rewrite (calculateProductDiscount_run _ _ _ _ _ Hp) in Ho.
    simpl in Ho. injection Ho as <-. by eexists.
  - rewrite applyBulkDiscounts_run in Hl. simpl in Hl. injection Hl as <-.
    rewrite list_lookup_fmap, Hi in Ho. simpl in Ho. injection Ho as <-.
    eexists. intros k Hk. by apply priceWith_lookup.
Qed.

Lemma priced_selected now db userId p o b :
  priced now db userId p o ->
  o !! "discount" = Some (VDoc b) ->
  o !! "originalPrice" = Some (VNum (Product.price p))
  /\ o !! "discountedPrice"
     = Some (VNum (discounted (Product.price p) (Discount.percentage b)))
  /\ o !! "discountPercentage" = Some (VNum (Discount.percentage b))
  /\ o !! "hasDiscount" = Some (VBool true)
  /\ o !! "savedAmount"
     = Some (VNum (saved (Product.price p) (Discount.percentage b)))
  /\ o !! "discountType" = Some (VStr (Discount.kind_name (Discount.type b))).
Proof.
  intros Hpr Hb. destruct (priced_shape _ _ _ _ _ Hpr) as [best Hk].
  assert (Hf : forall k, In k pricing_fields ->
                 o !! k = reduced_price (Product.price p) b !! k).
  { destruct best as [b'|].
    - rewrite (Hk "discount") in Hb by (simpl; tauto).
      simpl in Hb. unfold reduced_price in Hb. simplify_map_eq. exact Hk.
    - rewrite (Hk "discount") in Hb by (simpl; tauto).
      simpl in Hb. unfold plain_price in Hb. by simplify_map_eq. }
  repeat split; (rewrite Hf by (simpl; tauto)); unfold reduced_price;
    by simplify_map_eq.
Qed.

End Shape.

(** ** The worked examples of the specification *)

(** Product at 100.00 in shoes, a general discount of 10 and a category
    discount of 20 for shoes: the best is the category discount, the
    discounted price 80.00 and the saved amount 20.00, on both paths. *)
Example example_best_of_two :
  fst (DiscountService.calculateBestDiscount Ex.now "p1" None Ex.db_AB)
  = inr (Some Ex.B)
  /\ exists s b,
       fst (DiscountService.calculateProductDiscount Ex.now "p1" None Ex.db_AB) = inr s
       /\ fst (DiscountService.applyBulkDiscounts Ex.now [Ex.shoe] None Ex.db_AB) = inr [b]
       /\ s !! "discountedPrice" = Some (VNum (8000 # 100))
       /\ s !! "savedAmount" = Some (VNum (2000 # 100))
       /\ b !! "discountedPrice" = Some (VNum (8000 # 100))
       /\ b !! "savedAmount" = Some (VNum (2000 # 100)).
Proof.
  split; [reflexivity|]. eexists _, _.
  split; [reflexivity|]. split; [reflexivity|]. repeat split; by vm_compute.
Qed.

(** With a product discount of 20 that starts in the future added, that
    discount is left out and the best is unchanged. *)
Example example_not_yet_started :
  fst (DiscountService.getApplicableDiscounts Ex.now "p1" None Ex.db_ABC)
  = inr [Ex.B; Ex.A]
  /\ fst (DiscountService.calculateBestDiscount Ex.now "p1" None Ex.db_ABC)
     = inr (Some Ex.B).
Proof. split; reflexivity. Qed.

(** No discount matches. *)
Example example_no_discount :
  fst (DiscountService.calculateProductDiscount Ex.now "p1" None Ex.db_none)
  = inr (plain_price 100).
Proof. reflexivity. Qed.

(** A general discount of percentage 0 on the product at 100.00. *)
Example example_zero_percent :
  exists s,
    fst (DiscountService.calculateProductDiscount Ex.now "p1" None Ex.db_zero) = inr s
    /\ s !! "hasDiscount" = Some (VBool true)
    /\ s !! "discountedPrice" = Some (VNum (10000 # 100))
    /\ s !! "savedAmount" = Some (VNum (0 # 100)).
Proof. eexists. split; [reflexivity|]. repeat split; by vm_compute. Qed.

(** ** C8: the only failure is a product id that does not resolve *)

(** C8. [getApplicableDiscounts] and [calculateProductDiscount] fail with the
    error "Product not found" exactly when the product id does not resolve
    to a stored product; they raise no other error; and in every case, so
    also when they fail, the database is left as it was (on failure the
    result is the error alone). *)
Theorem C8_not_found_is_the_only_failure
    (now : Date) (productId : ObjectId) (userId : option ObjectId) (db : DB) :
  (fst (DiscountService.getApplicableDiscounts now productId userId db)
     = inl (mkError "Product not found")
   <-> product_of db productId = None)
  /\ (fst (DiscountService.calculateProductDiscount now productId userId db)
        = inl (mkError "Product not found")
      <-> product_of db productId = None)
  /\ (forall e,
        fst (DiscountService.getApplicableDiscounts now productId userId db) = inl e
        \/ fst (DiscountService.calculateProductDiscount now productId userId db) = inl e ->
        e = mkError "Product not found")
  /\ snd (DiscountService.getApplicableDiscounts now productId userId db) = db
  /\ snd (DiscountService.calculateProductDiscount now productId userId db) = db.
Proof.
  destruct (product_of db productId) as [p|] eqn:Hp.
  - rewrite (getApplicableDiscounts_run _ _ _ _ _ Hp).
    rewrite (calculateProductDiscount_run _ _ _ _ _ Hp). simpl.
    repeat split; try done. by intros e [H | H].
  - rewrite (getApplicableDiscounts_missing _ _ _ _ Hp).
    rewrite (calculateProductDiscount_missing _ _ _ _ Hp). simpl.
    repeat split; try done. by intros e [[= <-] | [= <-]].
Qed.

(** ** C9: a zero percentage is still a discount *)

Section ZeroPercent.

Import DiscountService.
Local Open Scope Q_scope.

Lemma discounted_zero (x p : Q) :
  p == 0 -> discounted x p = JS.Math_round (x * 100) / 100.
Proof.
  intros Hp. unfold discounted. f_equal. apply Math_round_comp.
  rewrite Hp. field.
Qed.

Lemma discounted_zero_cents (x p : Q) :
  p == 0 -> whole_cents x -> discounted x p == x.
Proof.
  intros Hp [k Hk]. rewrite (discounted_zero x p Hp).
  rewrite (Math_round_Z (x * 100) k).
  - rewrite Hk. field.
  - rewrite Hk. field.
Qed.

Lemma saved_zero_cents (x p : Q) :
  p == 0 -> whole_cents x -> saved x p == 0.
Proof.
  intros Hp Hc. unfold saved, JS.parseFloat.
  rewrite toFixed2_whole_cents.
  - rewrite (discounted_zero_cents x p Hp Hc). lra.
  - apply whole_cents_minus; [done | apply whole_cents_discounted].
Qed.

End ZeroPercent.

(** C9 (as amended). For a product id that resolves, [calculateProductDiscount]
    returns [hasDiscount = true] exactly when [getApplicableDiscounts] returns
    some discount; when it returns none, the result is exactly
    [{originalPrice, discountedPrice = originalPrice, hasDiscount = false}];
    and a best discount of percentage 0 still gives [hasDiscount = true].
    For a moderate price its [discountedPrice] is then within a cent of the
    original price, and when that price moreover has at most two decimals
    it is the original price, with [savedAmount] 0. *)
Theorem C9_zero_percent_is_a_discount
    (now : Date) (productId : ObjectId) (userId : option ObjectId) (db : DB)
    (p : Product.t) :
  product_of db productId = Some p ->
  exists ds o,
    fst (DiscountService.getApplicableDiscounts now productId userId db) = inr ds
    /\ fst (DiscountService.calculateProductDiscount now productId userId db) = inr o
    /\ (o !! "hasDiscount" = Some (VBool true) <-> ds <> [])
    /\ (ds = [] -> o = plain_price (Product.price p))
    /\ (forall b, head ds = Some b -> (Discount.percentage b == 0)%Q ->
          o !! "hasDiscount" = Some (VBool true)
          /\ exists dp s,
               o !! "discountedPrice" = Some (VNum dp)
               /\ o !! "savedAmount" = Some (VNum s)
               /\ (moderate (Product.price p) ->
                   (Qabs (dp - Product.price p) < 1 # 100)%Q
                   /\ (whole_cents (Product.price p) ->
                       (dp == Product.price p)%Q /\ (s == 0)%Q))).
Proof.
  intros Hp.
  rewrite (getApplicableDiscounts_run _ _ _ _ _ Hp).
  rewrite (calculateProductDiscount_run _ _ _ _ _ Hp). simpl.
  set (ds := Mongo.sort_percentage_desc _).
  exists ds, (pricing (Product.price p) (head ds)).
  split; [done|]. split; [done|]. split; [|split].
  - destruct ds as [|b ds']; simpl.
    + unfold plain_price. by simplify_map_eq.
    + unfold reduced_price. by simplify_map_eq.
  - by intros ->.
  - intros b -> Hz. simpl. unfold reduced_price.
    split; [by simplify_map_eq|].
    exists (discounted (Product.price p) (Discount.percentage b)),
           (saved (Product.price p) (Discount.percentage b)).
    split; [by simplify_map_eq|].
    split; [by simplify_map_eq|].
    intros Hm. split.
    + pose proof (discounted_close (Product.price p) (Discount.percentage b)) as Hc.
      assert (E : (Product.price p * (100 - Discount.percentage b) / 100
                   == Product.price p)%Q) by (rewrite Hz; field).
      rewrite E in Hc. eapply Qle_lt_trans; [exact Hc | reflexivity].
    + intros Hc. split; [by apply discounted_zero_cents | by apply saved_zero_cents].
Qed.

Lemma C9_witness :
  product_of Ex.db_zero "p1" = Some Ex.shoe
  /\ exists ds o,
       fst (DiscountService.getApplicableDiscounts Ex.now "p1" None Ex.db_zero) = inr ds
       /\ fst (DiscountService.calculateProductDiscount Ex.now "p1" None Ex.db_zero) = inr o
       /\ (o !! "hasDiscount" = Some (VBool true) <-> ds <> []).
Proof.
  split; [reflexivity|].
  destruct (C9_zero_percent_is_a_discount Ex.now "p1" None Ex.db_zero Ex.shoe eq_refl)
    as (ds & o & H1 & H2 & H3 & _).
  exists ds, o. split; [exact H1|]. split; [exact H2 | exact H3].
Defined.

(** At a price of 0.125 a best discount of percentage 0 gives a discounted
    price of 0.13 and a saved amount of -0.01: the price is not kept and the
    saved amount is not 0. *)
Lemma C9_zero_percent_changes_a_sub_cent_price :
  product_of Ex.db_zero "p2" = Some Ex.sample
  /\ fst (DiscountService.calculateBestDiscount Ex.now "p2" None Ex.db_zero)
     = inr (Some Ex.zero)
  /\ (Discount.percentage Ex.zero == 0)%Q
  /\ exists o,
       fst (DiscountService.calculateProductDiscount Ex.now "p2" None Ex.db_zero) = inr o
       /\ o !! "hasDiscount" = Some (VBool true)
       /\ o !! "discountedPrice" = Some (VNum (13 # 100))
       /\ ~ (13 # 100 == Product.price Ex.sample)%Q
       /\ o !! "savedAmount" = Some (VNum (-1 # 100))
       /\ ~ (-1 # 100 == 0)%Q.
Proof.
  split; [reflexivity|]. split; [reflexivity|]. split; [reflexivity|].
  eexists. split; [reflexivity|].
  split; [by vm_compute|]. split; [by vm_compute|]. split; [by vm_compute|].
  split; by vm_compute.
Qed.

(** ** C7: the discounted price *)




(** ** C3: the saved amount *)

(** C3 (as amended). When either pricing path selects a discount of
    percentage [p] in [0, 100] for a product of a moderate price [x], the
    returned [savedAmount] is a whole number of cents (up to the resolution
    of a double) and lies within a cent of [x - discountedPrice], the
    difference between [x] and the returned, already rounded
    [discountedPrice].  It is not negative when [x] has at most two
    decimals. *)
Theorem C3_saved_amount_from_the_rounded_price
    (now : Date) (db : DB) (userId : option ObjectId) (p : Product.t)
    (o : JSObject) (b : Discount.t) :
  priced now db userId p o ->
  o !! "discount" = Some (VDoc b) ->
  (0 <= Discount.percentage b <= 100)%Q ->
  moderate (Product.price p) ->
  exists dp s,
    o !! "discountedPrice" = Some (VNum dp)
    /\ o !! "savedAmount" = Some (VNum s)
    /\ near_cents s
    /\ (Qabs (s - (Product.price p - dp)) < 1 # 100)%Q
    /\ (whole_cents (Product.price p) -> (0 <= s)%Q).
Proof.
  intros Hpr Hb Hp Hm.
  destruct (priced_selected _ _ _ _ _ _ Hpr Hb) as (_ & Hdp & _ & _ & Hs & _).
  exists (discounted (Product.price p) (Discount.percentage b)),
         (saved (Product.price p) (Discount.percentage b)).
  destruct (saved_close _ _ Hm Hp) as [Hclose Hnear].
  split; [done|]. split; [done|]. split; [done|]. split.
  - eapply Qle_lt_trans; [exact Hclose | reflexivity].
  - intros Hc. destruct Hm as [Hx _], Hp as [Hp0 _].
    by apply saved_whole_cents.
Qed.

Lemma C3_witness :
  priced Ex.now Ex.db_AB None Ex.shoe Ex.shoe_bulk
  /\ Ex.shoe_bulk !! "discount" = Some (VDoc Ex.B)
  /\ (0 <= Discount.percentage Ex.B <= 100)%Q
  /\ moderate (Product.price Ex.shoe)
  /\ exists dp s,
       Ex.shoe_bulk !! "discountedPrice" = Some (VNum dp)
       /\ Ex.shoe_bulk !! "savedAmount" = Some (VNum s)
       /\ near_cents s
       /\ (Qabs (s - (Product.price Ex.shoe - dp)) < 1 # 100)%Q
       /\ (whole_cents (Product.price Ex.shoe) -> (0 <= s)%Q).
Proof.
  assert (H1 : priced Ex.now Ex.db_AB None Ex.shoe Ex.shoe_bulk).
  { apply (priced_bulk _ _ _ _ _ [Ex.shoe] [Ex.shoe_bulk] 0%nat); [reflexivity| |reflexivity].
    vm_cast_no_check (@eq_refl (Error + list JSObject) (inr [Ex.shoe_bulk])). }
  assert (H2 : Ex.shoe_bulk !! "discount" = Some (VDoc Ex.B)) by (by vm_compute).
  assert (H3 : (0 <= Discount.percentage Ex.B <= 100)%Q) by (by vm_compute).
  assert (H4 : moderate (Product.price Ex.shoe)) by (by vm_compute).
  split; [exact H1|]. split; [exact H2|]. split; [exact H3|]. split; [exact H4|].
  exact (C3_saved_amount_from_the_rounded_price _ _ _ _ _ _ H1 H2 H3 H4).
Defined.

(** At a price of 0.125 and a selected discount of percentage 0 the saved
    amount is -0.01: it is negative, and it is not the once-rounded
    difference [round2 (x - x * (100 - p) / 100)], which is 0.  At a price
    of 0.01 and a percentage of 50 the discounted price is 0.01 and the
    saved amount 0, where the once-rounded difference is 0.01. *)
Lemma C3_saved_amount_is_not_the_once_rounded_difference :
  (priced Ex.now Ex.db_zero None Ex.sample Ex.sample_priced
   /\ Ex.sample_priced !! "discount" = Some (VDoc Ex.zero)
   /\ Ex.sample_priced !! "savedAmount" = Some (VNum (-1 # 100))
   /\ ~ (0 <= -1 # 100)%Q
   /\ ~ (-1 # 100
         == round2 (Product.price Ex.sample
                    - Product.price Ex.sample * (100 - Discount.percentage Ex.zero) / 100))%Q)
  /\ (priced Ex.now Ex.db_half None Ex.penny Ex.penny_priced
      /\ Ex.penny_priced !! "discount" = Some (VDoc Ex.half)
      /\ Ex.penny_priced !! "discountedPrice" = Some (VNum (1 # 100))
      /\ Ex.penny_priced !! "savedAmount" = Some (VNum (0 # 100))
      /\ ~ (0 # 100
            == round2 (Product.price Ex.penny
                       - Product.price Ex.penny * (100 - Discount.percentage Ex.half) / 100))%Q).
Proof.
  split; split.
  - apply (priced_single _ _ _ _ _ "p2"); [reflexivity | by vm_compute].
  - split; [by vm_compute|]. split; [by vm_compute|]. split; by vm_compute.
  - apply (priced_single _ _ _ _ _ "p3"); [reflexivity | by vm_compute].
  - split; [by vm_compute|]. split; [by vm_compute|]. split; by vm_compute.
Qed.

(** ** C6: the per-product filter of the bulk path *)

(** C6. In [applyBulkDiscounts] every product is priced by the callback over
    the merged pool, and the callback keeps a discount of the pool exactly
    when it is [general]; or of type [category] with the product's category
    among its categories; or of type [product] with the product's id among
    its products; or of type [userGroup] with a (truthy) user id supplied,
    whatever the group.  The discount attached to a result is chosen among
    the discounts kept. *)
Theorem C6_bulk_filter_by_type
    (now : Date) (products : list Product.t) (userId : option ObjectId) (db : DB) :
  let combined := pool now products (group_of db userId) db in
  fst (DiscountService.applyBulkDiscounts now products userId db)
  = inr (map (DiscountService.priceWith combined userId) products)
  /\ (forall p d,
        In d (DiscountService.productDiscounts combined userId p)
        <-> In d combined
            /\ match Discount.type d with
               | Discount.general => True
               | Discount.category => In (Product.category p) (Discount.categories d)
               | Discount.product => In (Product._id p) (Discount.products d)
               | Discount.userGroup_ => JS.is_truthy userId = true
               end)
  /\ (forall p,
        DiscountService.priceWith combined userId p !! "discount"
        = VDoc <$> DiscountService.reduce_max
                     (DiscountService.productDiscounts combined userId p)).
Proof.
  intros combined. split; [|split].
  - by rewrite applyBulkDiscounts_run.
  - intros p d. unfold DiscountService.productDiscounts.
    rewrite filter_In. apply and_iff_compat_l.
    destruct (Discount.type d); simpl;
      rewrite ?andb_false_r, ?orb_false_r, ?orb_true_r; simpl;
      first [apply includes_In | tauto].
  - intros p. rewrite priceWith_lookup by (simpl; tauto).
    destruct (DiscountService.reduce_max _); simpl;
      unfold reduced_price, plain_price; by simplify_map_eq.
Qed.

(** ** C10: the bulk path leaves its argument objects alone *)

Section Frame.

Import DiscountService.

Lemma unlean_lean (o : JSObject) (p : Product.t) :
  Ref.unlean o = Some p -> lean p = o.
Proof.
  unfold Ref.unlean. intros H.
  repeat (match type of H with
          | (_ ≫= _) = Some _ => apply bind_Some in H; destruct H as (? & _ & H)
          end).
  by case_decide; simplify_eq.
Qed.

Lemma deref_lookup (h : Heap) (refs : list positive) (ps : list Product.t) :
  Ref.deref h refs = Some ps ->
  length ps = length refs
  /\ forall i r, refs !! i = Some r ->
       exists p, ps !! i = Some p /\ h !! r = Some (lean p).
Proof.
  unfold Ref.deref. intros H. apply mapM_Some in H. split.
  - symmetry. by eapply Forall2_length.
  - intros i r Hr.
    destruct (Forall2_lookup_l _ _ _ _ _ H Hr) as (p & Hp & Hf).
    exists p. split; [done|].
    apply bind_Some in Hf. destruct Hf as (o & Ho & Hu).
    by rewrite (unlean_lean _ _ Hu).
Qed.

Lemma alloc_all_spec (os : list JSObject) :
  forall (h : Heap) ls h',
    Ref.alloc_all os h = (ls, h') ->
    length ls = length os
    /\ (forall r o, h !! r = Some o -> h' !! r = Some o)
    /\ (forall i o, os !! i = Some o ->
          exists l, ls !! i = Some l /\ h' !! l = Some o /\ h !! l = None).
Proof.
  induction os as [|o os IH]; intros h ls h' H; simpl in H.
  - injection H as <- <-. by repeat split.
  - unfold Ref.alloc in H.
    set (l0 := fresh (dom h)) in *.
    assert (Hfresh : h !! l0 = None).
    { apply not_elem_of_dom. apply is_fresh. }
    clearbody l0.
    destruct (Ref.alloc_all os _) as [ls' h2] eqn:E.
    injection H as <- <-.
    destruct (IH _ _ _ E) as (Hlen & Hframe & Hnew).
    split; [simpl; by f_equal|]. split.
    + intros r o0 Hr. apply Hframe.
      rewrite lookup_insert_ne; [done|]. intros ->. congruence.
    + intros [|i] o0 Hi; simpl in Hi.
      * injection Hi as <-. exists l0.
        split; [done|]. split; [|done].
        apply Hframe. by rewrite lookup_insert_eq.
      * destruct (Hnew i o0 Hi) as (l & Hl & Hh2 & Hh1).
        exists l. split; [done|]. split; [done|].
        destruct (decide (l0 = l)) as [<- | Hne].
        -- by rewrite lookup_insert_eq in Hh1.
        -- by rewrite lookup_insert_ne in Hh1.
Qed.

Lemma lean_no_pricing (p : Product.t) (k : string) :
  In k pricing_fields -> lean p !! k = None.
Proof.
  intros Hk. unfold lean.
  repeat (destruct Hk as [<- | Hk]; [by simplify_map_eq|]). destruct Hk.
Qed.

Lemma priceWith_keeps combined userId p k v :
  lean p !! k = Some v -> priceWith combined userId p !! k = Some v.
Proof.
  intros Hk.
  assert (Hn : ~ In k pricing_fields).
  { intros Hin. rewrite (lean_no_pricing p k Hin) in Hk. done. }
  unfold priceWith. simpl in Hn.
  destruct (reduce_max _); rewrite !lookup_insert_ne by tauto; done.
Qed.

Lemma priceWith_adds combined userId p k :
  is_Some (priceWith combined userId p !! k) ->
  is_Some (lean p !! k) \/ In k pricing_fields.
Proof.
  destruct (decide (In k pricing_fields)) as [Hin | Hn]; [by right|].
  intros H. left. unfold priceWith in H. simpl in Hn.
  destruct (reduce_max _); rewrite !lookup_insert_ne in H by tauto; done.
Qed.

End Frame.

(** C10. Called on references to product objects, [applyBulkDiscounts]
    returns as many new objects as it was given products; the object at
    position [i] carries every property of the product at position [i] with
    its value, and beyond those only pricing properties; and every object
    that was on the heap before the call, the products among them, is the
    same after it. *)
Theorem C10_bulk_preserves_the_products
    (now : Date) (refs : list positive) (userId : option ObjectId)
    (h : Heap) (db : DB) (ps : list Product.t) :
  Ref.deref h refs = Some ps ->
  exists ls h',
    Ref.applyBulkDiscounts now refs userId h db = (inr (Some (ls, h')), db)
    /\ length ls = length refs
    /\ (forall i r, refs !! i = Some r ->
          exists o l o',
            h !! r = Some o /\ ls !! i = Some l
            /\ h !! l = None /\ h' !! l = Some o'
            /\ (forall k v, o !! k = Some v -> o' !! k = Some v)
            /\ (forall k, is_Some (o' !! k) ->
                  is_Some (o !! k) \/ In k pricing_fields))
    /\ (forall r o, h !! r = Some o -> h' !! r = Some o).
Proof.
  intros Hd. unfold Ref.applyBulkDiscounts. rewrite Hd.
  unfold bind, ret. rewrite applyBulkDiscounts_run.
  set (combined := pool now ps (group_of db userId) db).
  destruct (Ref.alloc_all (map (DiscountService.priceWith combined userId) ps) h)
    as [ls h'] eqn:E.
  exists ls, h'. split; [done|].
  destruct (alloc_all_spec _ _ _ _ E) as (Hlen & Hframe & Hnew).
  destruct (deref_lookup _ _ _ Hd) as (Hlps & Hps).
  split; [by rewrite Hlen, length_map|]. split; [|done].
  intros i r Hr.
  destruct (Hps i r Hr) as (p & Hp & Hh).
  destruct (Hnew i (DiscountService.priceWith combined userId p)) as (l & Hl & Hh' & Hfree).
  { by rewrite list_lookup_fmap, Hp. }
  exists (lean p), l, (DiscountService.priceWith combined userId p).
  repeat split; try done.
  - intros k v. apply priceWith_keeps.
  - intros k. apply priceWith_adds.
Qed.

Lemma C10_witness :
  Ref.deref Ex.heap1 [1%positive] = Some [Ex.shoe]
  /\ exists ls h',
       Ref.applyBulkDiscounts Ex.now [1%positive] None Ex.heap1 Ex.db_AB
       = (inr (Some (ls, h')), Ex.db_AB)
       /\ length ls = 1%nat
       /\ (forall r o, Ex.heap1 !! r = Some o -> h' !! r = Some o).
Proof.
  assert (H : Ref.deref Ex.heap1 [1%positive] = Some [Ex.shoe]) by (by vm_compute).
  split; [exact H|].
  destruct (C10_bulk_preserves_the_products Ex.now [1%positive] None
              Ex.heap1 Ex.db_AB [Ex.shoe] H) as (ls & h' & H1 & H2 & _ & H4).
  exists ls, h'. split; [exact H1|]. split; [exact H2 | exact H4].
Defined.

(** ** C1: the bulk path against the single-product path *)

Section Consistency.

Import Mongo DiscountService.
Local Open Scope Q_scope.

Lemma includes_one (l : list string) (y : string) :
  existsb (fun x => JS.includes [y] x) l = JS.includes l y.
Proof.
  unfold JS.includes. apply existsb_ext_eq. intros a. simpl.
  by rewrite orb_false_r, String.eqb_sym.
Qed.

Lemma group_of_truthy db userId g :
  group_of db userId = Some g -> JS.is_truthy userId = true.
Proof.
  unfold group_of, JS.is_truthy. by destruct (JS.truthy userId).
Qed.

Lemma pool_In now ps g db d :
  In d (pool now ps g db)
  <-> In d (Discounts db) /\ live now d = true
      /\ ((existsb (fun x => JS.includes (map Product._id ps) x) (Discount.products d)
           || (Discount.kind_eqb (Discount.type d) Discount.category
               && existsb (fun x => JS.includes (map Product.category ps) x)
                    (Discount.categories d))
           || Discount.kind_eqb (Discount.type d) Discount.general) = true
          \/ exists g', g = Some g'
               /\ (Discount.kind_eqb (Discount.type d) Discount.userGroup_
                   && has_group d g') = true).
Proof.
  unfold pool. rewrite in_app_iff, filter_In, andb_true_iff.
  destruct g as [g'|].
  - rewrite filter_In, andb_true_iff. split.
    + intros [(Hd & Hs & Hl) | (Hd & Hs & Hl)]; (split; [done|]); (split; [done|]).
      * by left.
      * right. by exists g'.
    + intros (Hd & Hl & [Hs | (g0 & [= <-] & Hs)]); [by left | by right].
  - split.
    + intros [(Hd & Hs & Hl) | []]. split; [done|]. split; [done|]. by left.
    + intros (Hd & Hl & [Hs | (g0 & [=] & _)]). by left.
Qed.

(** Without a foreign listing under [products], both paths consider the
    same discounts for the product. *)
Lemma same_candidates now db userId p d :
  listed_by_type db p ->
  In d (List.filter (fun d =>
          single_or (Product._id p) (Product.category p) (group_of db userId) d
          && live now d) (Discounts db))
  <-> In d (productDiscounts (pool now [p] (group_of db userId) db) userId p).
Proof.
  intros Hl. unfold productDiscounts.
  rewrite !filter_In, pool_In. simpl map.
  rewrite !includes_one.
  pose proof (group_of_truthy db userId) as Ht.
  unfold single_or.
  destruct (group_of db userId) as [g|].
  - rewrite (Ht g eq_refl), andb_true_r.
    split.
    + intros (Hd & H). specialize (Hl d Hd).
      destruct (JS.includes (Discount.products d) (Product._id p));
        destruct (JS.includes (Discount.categories d) (Product.category p));
        destruct (live now d); destruct (has_group d g) eqn:Hg;
        destruct (Discount.type d); simpl in *;
        try discriminate; try (destruct Hl as [? | ?]; [done | discriminate | discriminate]);
        (split; [split; [done|split; [done|]]|done]);
        first [by left | right; exists g; by rewrite Hg].
    + intros ((Hd & Hlive & H) & Hf). split; [done|]. rewrite Hlive.
      destruct H as [H | (g' & [= <-] & H)].
      * destruct (JS.includes (Discount.products d) (Product._id p));
          destruct (JS.includes (Discount.categories d) (Product.category p));
          destruct (Discount.type d); simpl in *; done.
      * destruct (Discount.type d); simpl in *; try done.
        rewrite H. by rewrite !orb_true_r.
  - split.
    + intros (Hd & H). specialize (Hl d Hd).
      destruct (JS.includes (Discount.products d) (Product._id p));
        destruct (JS.includes (Discount.categories d) (Product.category p));
        destruct (live now d);
        destruct (Discount.type d); simpl in *;
        try discriminate; try (destruct Hl as [? | ?]; [done | discriminate | discriminate]);
        (split; [split; [done|split; [done|]]|done]); by left.
    + intros ((Hd & Hlive & H) & Hf). split; [done|]. rewrite Hlive.
      destruct H as [H | (g' & [=] & _)].
      destruct (JS.includes (Discount.products d) (Product._id p));
        destruct (JS.includes (Discount.categories d) (Product.category p));
        destruct (Discount.type d); simpl in *; done.
Qed.

End Consistency.

(** C1 (as amended). Let the product [p] be stored under its id, and let
    only discounts of type [product] or [general] list it under [products].
    Then [applyBulkDiscounts [p]] returns one entry, which agrees with the
    result of [calculateProductDiscount] on [originalPrice],
    [discountedPrice], [hasDiscount] and [savedAmount], and carries the same
    number as [discountPercentage].  When a single applicable discount has
    the highest percentage, the two results also carry the same [discount],
    [discountType] and [discountPercentage]. *)
Theorem C1_bulk_agrees_with_single_on_prices
    (now : Date) (db : DB) (userId : option ObjectId) (p : Product.t) :
  product_of db (Product._id p) = Some p ->
  listed_by_type db p ->
  exists ds s b,
    fst (DiscountService.getApplicableDiscounts now (Product._id p) userId db) = inr ds
    /\ fst (DiscountService.calculateProductDiscount now (Product._id p) userId db) = inr s
    /\ fst (DiscountService.applyBulkDiscounts now [p] userId db) = inr [b]
    /\ b !! "originalPrice" = s !! "originalPrice"
    /\ b !! "discountedPrice" = s !! "discountedPrice"
    /\ b !! "hasDiscount" = s !! "hasDiscount"
    /\ b !! "savedAmount" = s !! "savedAmount"
    /\ same_number (b !! "discountPercentage") (s !! "discountPercentage")
    /\ ((forall d1 d2, is_best ds d1 -> is_best ds d2 -> d1 = d2) ->
        b !! "discount" = s !! "discount"
        /\ b !! "discountType" = s !! "discountType"
        /\ b !! "discountPercentage" = s !! "discountPercentage").
Proof.
  intros Hp Hl.
  rewrite (getApplicableDiscounts_run _ _ _ _ _ Hp).
  rewrite (calculateProductDiscount_run _ _ _ _ _ Hp).
  rewrite applyBulkDiscounts_run. simpl.
  set (L1 := List.filter _ (Discounts db)).
  set (combined := pool now [p] (group_of db userId) db).
  set (L2 := DiscountService.productDiscounts combined userId p).
  assert (Hsame : forall d, In d L1 <-> In d L2)
    by (intros d; by apply same_candidates).
  eexists _, _, _. split; [done|]. split; [done|]. split; [done|].
  rewrite !priceWith_lookup by (simpl; tauto). fold L2.
  destruct (head (Mongo.sort_percentage_desc L1)) as [b1|] eqn:H1;
    destruct (DiscountService.reduce_max L2) as [b2|] eqn:H2.
  - apply head_sort_is_best in H1 as Hb1.
    apply reduce_max_is_best in H2 as Hb2.
    assert (Hpc : (Discount.percentage b2 == Discount.percentage b1)%Q).
    { eapply is_best_percentage; [|exact Hb2|exact Hb1]. intros d. by rewrite Hsame. }
    simpl. unfold reduced_price, saved.
    rewrite (discounted_comp _ _ _ Hpc).
    simplify_map_eq.
    do 5 (split; [done|]).
    intros Huniq.
    assert (b2 = b1) as ->; [|done].
    apply Huniq.
    + apply (is_best_ext L2); [|done].
      intros d. by rewrite In_sort_percentage_desc, Hsame.
    + apply (is_best_ext L1); [|done].
      intros d. by rewrite In_sort_percentage_desc.
  - exfalso. apply reduce_max_nil in H2.
    apply head_sort_is_best in H1 as [Hin _].
    apply Hsame in Hin. rewrite H2 in Hin. done.
  - exfalso. apply head_sort_nil in H1.
    apply reduce_max_is_best in H2 as [Hin _].
    apply Hsame in Hin. rewrite H1 in Hin. done.
  - simpl. unfold plain_price. simplify_map_eq. by repeat split.
Qed.

Lemma C1_witness :
  product_of Ex.db_ABC (Product._id Ex.shoe) = Some Ex.shoe
  /\ listed_by_type Ex.db_ABC Ex.shoe
  /\ exists s b,
       fst (DiscountService.calculateProductDiscount Ex.now "p1" (Some "u1") Ex.db_ABC)
       = inr s
       /\ fst (DiscountService.applyBulkDiscounts Ex.now [Ex.shoe] (Some "u1") Ex.db_ABC)
          = inr [b]
       /\ b !! "discountedPrice" = s !! "discountedPrice"
       /\ b !! "savedAmount" = s !! "savedAmount".
Proof.
  assert (H1 : product_of Ex.db_ABC (Product._id Ex.shoe) = Some Ex.shoe)
    by reflexivity.
  assert (H2 : listed_by_type Ex.db_ABC Ex.shoe).
  { intros d [<- | [<- | [<- | []]]] H; vm_compute in H;
      first [discriminate H | by left]. }
  split; [exact H1|]. split; [exact H2|].
  destruct (C1_bulk_agrees_with_single_on_prices Ex.now Ex.db_ABC (Some "u1")
              Ex.shoe H1 H2)
    as (ds & s & b & _ & Hs & Hb & _ & Hdp & _ & Hsv & _).
  exists s, b. split; [exact Hs|]. split; [exact Hb|]. split; [exact Hdp | exact Hsv].
Defined.

(** Two stores on which the two paths differ.  With a user-group discount
    stored before a general discount of the same percentage, the single path
    selects the user-group discount (the first in the sorted result) and the
    bulk path the general one (the first in the merged pool).  With a
    category discount for hats that lists the shoe under [products], the
    single path prices the shoe at half and the bulk path leaves it
    undiscounted. *)
Lemma C1_bulk_differs_from_single :
  (product_of Ex.db_tie "p1" = Some Ex.shoe
   /\ exists s b,
        fst (DiscountService.calculateProductDiscount Ex.now "p1" (Some "u1") Ex.db_tie)
        = inr s
        /\ fst (DiscountService.applyBulkDiscounts Ex.now [Ex.shoe] (Some "u1") Ex.db_tie)
           = inr [b]
        /\ s !! "discount" = Some (VDoc Ex.vip)
        /\ b !! "discount" = Some (VDoc Ex.general20)
        /\ s !! "discountType" = Some (VStr "userGroup")
        /\ b !! "discountType" = Some (VStr "general"))
  /\ (product_of Ex.db_hats "p1" = Some Ex.shoe
      /\ exists s b,
           fst (DiscountService.calculateProductDiscount Ex.now "p1" None Ex.db_hats)
           = inr s
           /\ fst (DiscountService.applyBulkDiscounts Ex.now [Ex.shoe] None Ex.db_hats)
              = inr [b]
           /\ s !! "hasDiscount" = Some (VBool true)
           /\ b !! "hasDiscount" = Some (VBool false)
           /\ s !! "discountedPrice" = Some (VNum (5000 # 100))
           /\ b !! "discountedPrice" = Some (VNum 100)).
Proof.
  split; (split; [reflexivity|]); eexists _, _;
    (split; [reflexivity|]); (split; [reflexivity|]);
    repeat split; by vm_compute.
Qed.

(** ** C4 and C5: which discounts the single-product path returns *)

Section Scope.

Import Mongo DiscountService.

(** What [getApplicableDiscounts] returns: the stored discounts that are
    in their window and active, and that the [$or] accepts. *)
Lemma applicable_In now productId userId db p ds d :
  product_of db productId = Some p ->
  fst (getApplicableDiscounts now productId userId db) = inr ds ->
  In d ds
  <-> In d (Discounts db) /\ live now d = true
      /\ single_or productId (Product.category p) (group_of db userId) d = true.
Proof.
  intros Hp Hds. rewrite (getApplicableDiscounts_run _ _ _ _ _ Hp) in Hds.
  simpl in Hds. injection Hds as <-.
  rewrite In_sort_percentage_desc, filter_In, andb_true_iff. tauto.
Qed.

(** A discount that has not started, has ended, or is not flagged active
    is never returned, hence never selected. *)
Lemma applicable_in_window now productId userId db ds d :
  fst (getApplicableDiscounts now productId userId db) = inr ds ->
  In d ds ->
  Discount.startDate d <= now /\ now <= Discount.endDate d
  /\ Discount.active d = true.
Proof.
  intros Hds Hd.
  destruct (product_of db productId) as [p|] eqn:Hp.
  - destruct (proj1 (applicable_In _ _ _ _ _ _ d Hp Hds) Hd) as (_ & Hl & _).
    unfold live, in_window in Hl.
    apply andb_true_iff in Hl as [Hw Ha].
    apply andb_true_iff in Hw as [H1 H2].
    apply Z.leb_le in H1, H2. done.
  - by rewrite (getApplicableDiscounts_missing _ _ _ _ Hp) in Hds.
Qed.

(** Every live discount whose scope matches the product is returned. *)
Lemma applicable_complete now userId db p ds d :
  product_of db (Product._id p) = Some p ->
  fst (getApplicableDiscounts now (Product._id p) userId db) = inr ds ->
  In d (Discounts db) -> live now d = true ->
  scope_matches p (group_of db userId) d = true ->
  In d ds.
Proof.
  intros Hp Hds Hd Hl Hs.
  apply (applicable_In _ _ _ _ _ _ _ Hp Hds).
  split; [done|]. split; [done|].
  unfold scope_matches in Hs. unfold single_or.
  destruct (Discount.type d); simpl.
  - by rewrite Hs.
  - by rewrite Hs, orb_true_r.
  - destruct (group_of db userId); [|done]. by rewrite Hs, orb_true_r.
  - by rewrite orb_true_r.
Qed.

(** In the bulk path the discount attached to a product is in scope for
    it by its type: a [category] discount lists the product's category, a
    [product] discount lists its id, and a [userGroup] discount is only
    attached when a user id was supplied. *)
Lemma bulk_selected_in_scope now products userId db l i p o b :
  fst (applyBulkDiscounts now products userId db) = inr l ->
  products !! i = Some p -> l !! i = Some o ->
  o !! "discount" = Some (VDoc b) ->
  match Discount.type b with
  | Discount.general => True
  | Discount.category => In (Product.category p) (Discount.categories b)
  | Discount.product => In (Product._id p) (Discount.products b)
  | Discount.userGroup_ => JS.is_truthy userId = true
  end.
Proof.
  intros Hl Hi Ho Hb.
  rewrite applyBulkDiscounts_run in Hl. simpl in Hl. injection Hl as <-.
  rewrite list_lookup_fmap, Hi in Ho. simpl in Ho. injection Ho as <-.
  rewrite priceWith_lookup in Hb by (simpl; tauto).
  destruct (reduce_max _) as [b'|] eqn:E; simpl in Hb.
  2: { unfold plain_price in Hb. by simplify_map_eq. }
  unfold reduced_price in Hb. simplify_map_eq.
  apply reduce_max_is_best in E as [Hin _].
  unfold productDiscounts in Hin. apply filter_In in Hin as [_ Hf].
  destruct (Discount.type b); simpl in Hf;
    rewrite ?andb_false_r, ?orb_false_r in Hf; simpl in Hf;
    first [by apply includes_In | done].
Qed.

End Scope.

(** C4. The admin surface accepts the hats discount (type [category],
    categories hats, the shoe listed under [products]).  On the store
    holding only that discount, [getApplicableDiscounts] for the shoe,
    whose category is shoes, returns it: it is live, but its scope does not
    match the product. *)
Theorem C4_returns_a_discount_out_of_scope :
  DiscountService.createDiscount "dH" Ex.now Ex.hats_body Ex.db_none
  = (inr Ex.hats, Ex.db_hats)
  /\ product_of Ex.db_hats "p1" = Some Ex.shoe
  /\ fst (DiscountService.getApplicableDiscounts Ex.now "p1" None Ex.db_hats)
     = inr [Ex.hats]
  /\ live Ex.now Ex.hats = true
  /\ scope_matches Ex.shoe (group_of Ex.db_hats None) Ex.hats = false.
Proof. repeat split; by vm_compute. Qed.

(** C5. The admin surface accepts both sample discounts.  On the store
    holding the hats discount the single-product path selects it for the
    shoe, and on the store holding only a user-group discount that lists
    the shoe under [products] it selects that discount with no user id
    supplied; the bulk path attaches no discount in either case. *)
Theorem C5_single_path_selects_out_of_scope :
  (DiscountService.createDiscount "dH" Ex.now Ex.hats_body Ex.db_none
   = (inr Ex.hats, Ex.db_hats)
   /\ fst (DiscountService.calculateBestDiscount Ex.now "p1" None Ex.db_hats)
      = inr (Some Ex.hats)
   /\ Discount.type Ex.hats = Discount.category
   /\ ~ In (Product.category Ex.shoe) (Discount.categories Ex.hats)
   /\ exists s b,
        fst (DiscountService.calculateProductDiscount Ex.now "p1" None Ex.db_hats) = inr s
        /\ s !! "discountType" = Some (VStr "category")
        /\ fst (DiscountService.applyBulkDiscounts Ex.now [Ex.shoe] None Ex.db_hats)
           = inr [b]
        /\ b !! "hasDiscount" = Some (VBool false))
  /\ (DiscountService.createDiscount "dL" Ex.now Ex.vip_listed_body Ex.db_none
      = (inr Ex.vip_listed, Ex.db_listed)
      /\ fst (DiscountService.calculateBestDiscount Ex.now "p1" None Ex.db_listed)
         = inr (Some Ex.vip_listed)
      /\ Discount.type Ex.vip_listed = Discount.userGroup_
      /\ exists s b,
           fst (DiscountService.calculateProductDiscount Ex.now "p1" None Ex.db_listed)
           = inr s
           /\ s !! "discountType" = Some (VStr "userGroup")
           /\ fst (DiscountService.applyBulkDiscounts Ex.now [Ex.shoe] None Ex.db_listed)
              = inr [b]
           /\ b !! "hasDiscount" = Some (VBool false)).
Proof.
  split.
  - split; [reflexivity|]. split; [reflexivity|]. split; [reflexivity|]. split.
    + simpl. intros [H | []]. discriminate H.
    + eexists _, _. split; [reflexivity|]. split; [by vm_compute|].
      split; [reflexivity | by vm_compute].
  - split; [reflexivity|]. split; [reflexivity|]. split; [reflexivity|].
    eexists _, _. split; [reflexivity|]. split; [by vm_compute|].
    split; [reflexivity | by vm_compute].
Qed.

(** ** C2: the [active] flag on persist *)

Section Persist.

Import DiscountService.

(** Creation recomputes the flag: the stored discount is active exactly
    when its window contains the time of the save, whatever [active] the
    request carried. *)
Lemma createDiscount_active newId now data db d db' :
  createDiscount newId now data db = (inr d, db') ->
  Discounts db' = Discounts db ++ [d]
  /\ Discount.active d = in_window now d.
Proof.
  unfold createDiscount, bind, DiscountModel.save_new, ret.
  destruct (DiscountModel.construct newId now data) as [doc|]; [|done].
  intros [= <- <-]. split; [done|].
  unfold in_window. simpl. f_equal. apply Z.geb_leb.
Qed.

(** An update stores for [active] what the request carries, or else what
    was stored; neither the dates nor the time of the update enter. *)
Lemma updateDiscount_active discountId updateData db d' db' :
  updateDiscount discountId updateData db = (inr (Some d'), db') ->
  exists d,
    List.find (fun d => String.eqb (Discount._id d) discountId) (Discounts db) = Some d
    /\ Discount.active d' = default (Discount.active d) (Body.active updateData).
Proof.
  unfold updateDiscount, DiscountModel.findByIdAndUpdate.
  destruct (DiscountModel.update_ok updateData); [|done].
  destruct (List.find _ (Discounts db)) as [d|]; [|done].
  intros [= <- <-]. by exists d.
Qed.

End Persist.

(** C2. The discount [A] (window 0..100) is stored and active at time 50.
    Updating its [endDate] to 10 through [updateDiscount] stores the new
    window and leaves [active] at [true], although the window no longer
    contains the time of the update. *)
Theorem C2_update_does_not_recompute_active :
  exists d',
    DiscountService.updateDiscount "dA" Ex.shorten Ex.db_A
    = (inr (Some d'), mkDB [Ex.shoe] [Ex.alice] [d'])
    /\ Discount.endDate d' = 10
    /\ Discount.active d' = true
    /\ in_window Ex.now d' = false.
Proof. eexists. split; [reflexivity|]. repeat split. Qed.


(** * Further properties of the service and of its callers *)

(** ** The ordered result and the best discount *)

Section Ordered.

Import Mongo DiscountService.
Local Open Scope Q_scope.

Lemma insert_desc_descending d l :
  descending l -> descending (insert_desc d l).
Proof.
  induction l as [|x l IH]; intros Hl.
  - intros [|i] [|j] a b Hij Ha Hb; simplify_eq/=. lra.
  - simpl. destruct (JS.gt _ _) eqn:E.
    + assert (Hl' : descending l).
      { intros i j a b Hij Ha Hb. apply (Hl (S i) (S j)); [lia|done|done]. }
      specialize (IH Hl').
      intros [|i] [|j] a b Hij Ha Hb; simplify_eq/=; try lia.
      * lra.
      * assert (Hin : In b (insert_desc d l)).
        { apply list_elem_of_In. by eapply list_elem_of_lookup_2. }
        apply In_insert_desc in Hin as [-> | Hin].
        -- apply gt_true_lt in E. lra.
        -- apply list_elem_of_In, list_elem_of_lookup in Hin as [k Hk].
           apply (Hl 0%nat (S k)); [lia|done|done].
      * apply (IH i j); [lia|done|done].
    + apply gt_false_le in E.
      intros [|i] [|j] a b Hij Ha Hb; simplify_eq/=; try lia.
      * lra.
      * assert (Hx : Discount.percentage b <= Discount.percentage x).
        { apply (Hl 0%nat j); [lia|done|done]. }
        lra.
      * apply (Hl i j); [lia|done|done].
Qed.

Lemma sort_descending l : descending (sort_percentage_desc l).
Proof.
  induction l as [|d l IH]; simpl.
  - intros i j a b _ Ha. by rewrite lookup_nil in Ha.
  - by apply insert_desc_descending.
Qed.

(** A higher percentage never gives a higher price. *)
Lemma discounted_antitone (x p q : Q) :
  0 <= x -> p <= q -> discounted x q <= discounted x p.
Proof.
  intros Hx Hpq. unfold discounted.
  apply Qmult_le_compat_r; [|discriminate].
  apply Math_round_mono.
  assert (H : (100 - q) / 100 <= (100 - p) / 100).
  { apply Qmult_le_compat_r; [lra | discriminate]. }
  nra.
Qed.

End Ordered.

(** X1. For a product id that resolves, [getApplicableDiscounts] returns
    stored discounts only, each with its window around [now] and flagged
    active, in an order in which the percentages never increase. *)
Theorem X1_applicable_are_live_and_ordered
    (now : Date) (productId : ObjectId) (userId : option ObjectId) (db : DB)
    (p : Product.t) :
  product_of db productId = Some p ->
  exists ds,
    DiscountService.getApplicableDiscounts now productId userId db = (inr ds, db)
    /\ (forall d, In d ds ->
          In d (Discounts db)
          /\ Discount.startDate d <= now /\ now <= Discount.endDate d
          /\ Discount.active d = true)
    /\ descending ds.
Proof.
  intros Hp. rewrite (getApplicableDiscounts_run _ _ _ _ _ Hp).
  eexists. split; [done|]. split; [|apply sort_descending].
  intros d Hd. apply In_sort_percentage_desc, filter_In in Hd as [Hin Hf].
  split; [done|].
  apply andb_true_iff in Hf as [_ Hl]. unfold live, in_window in Hl.
  apply andb_true_iff in Hl as [Hw Ha]. apply andb_true_iff in Hw as [H1 H2].
  apply Z.leb_le in H1, H2. done.
Qed.

Lemma X1_witness :
  product_of Ex.db_ABC "p1" = Some Ex.shoe
  /\ exists ds,
       DiscountService.getApplicableDiscounts Ex.now "p1" None Ex.db_ABC
       = (inr ds, Ex.db_ABC)
       /\ descending ds.
Proof.
  split; [reflexivity|].
  destruct (X1_applicable_are_live_and_ordered Ex.now "p1" None Ex.db_ABC Ex.shoe eq_refl)
    as (ds & H1 & _ & H3).
  exists ds. split; [exact H1 | exact H3].
Defined.

(** X2. For a product id that resolves, [calculateBestDiscount] returns
    nothing exactly when no discount applies; otherwise it returns an
    applicable discount whose percentage is the highest, and for a price
    that is not negative no applicable discount gives a lower discounted
    price than the one [calculateProductDiscount] returns. *)
Theorem X2_best_discount_is_highest
    (now : Date) (productId : ObjectId) (userId : option ObjectId) (db : DB)
    (p : Product.t) :
  product_of db productId = Some p ->
  exists ds best o,
    fst (DiscountService.getApplicableDiscounts now productId userId db) = inr ds
    /\ fst (DiscountService.calculateBestDiscount now productId userId db) = inr best
    /\ fst (DiscountService.calculateProductDiscount now productId userId db) = inr o
    /\ (best = None <-> ds = [])
    /\ (forall b, best = Some b ->
          is_best ds b
          /\ o !! "discount" = Some (VDoc b)
          /\ ((0 <= Product.price p)%Q ->
              forall d, In d ds ->
                (discounted (Product.price p) (Discount.percentage b)
                 <= discounted (Product.price p) (Discount.percentage d))%Q)).
Proof.
  intros Hp.
  rewrite (getApplicableDiscounts_run _ _ _ _ _ Hp).
  rewrite (calculateBestDiscount_run _ _ _ _ _ Hp).
  rewrite (calculateProductDiscount_run _ _ _ _ _ Hp). simpl.
  set (L := List.filter _ (Discounts db)).
  eexists _, _, _. split; [done|]. split; [done|]. split; [done|]. split.
  - rewrite head_sort_nil. split.
    + by intros ->.
    + intros H. destruct L as [|d L']; [done|].
      assert (Hin : In d (Mongo.sort_percentage_desc (d :: L')))
        by (apply In_sort_percentage_desc; by left).
      rewrite H in Hin. done.
  - intros b Hb. rewrite Hb. simpl.
    apply head_sort_is_best in Hb.
    assert (Hbest : is_best (Mongo.sort_percentage_desc L) b).
    { apply (is_best_ext L); [|done]. intros d. by rewrite In_sort_percentage_desc. }
    split; [done|]. split; [unfold reduced_price; by simplify_map_eq|].
    intros Hx d Hd. apply discounted_antitone; [done|].
    by apply Hbest.
Qed.

Lemma X2_witness :
  product_of Ex.db_AB "p1" = Some Ex.shoe
  /\ exists ds best,
       fst (DiscountService.getApplicableDiscounts Ex.now "p1" None Ex.db_AB) = inr ds
       /\ fst (DiscountService.calculateBestDiscount Ex.now "p1" None Ex.db_AB) = inr best
       /\ (best = None <-> ds = []).
Proof.
  split; [reflexivity|].
  destruct (X2_best_discount_is_highest Ex.now "p1" None Ex.db_AB Ex.shoe eq_refl)
    as (ds & best & o & H1 & H2 & _ & H4 & _).
  exists ds, best. split; [exact H1|]. split; [exact H2 | exact H4].
Defined.

(** X3. For a stored product, every stored discount that is live and whose
    scope matches the product by its type is among the discounts
    [getApplicableDiscounts] returns. *)
Theorem X3_every_matching_discount_is_returned
    (now : Date) (userId : option ObjectId) (db : DB) (p : Product.t)
    (d : Discount.t) :
  product_of db (Product._id p) = Some p ->
  In d (Discounts db) ->
  live now d = true ->
  scope_matches p (group_of db userId) d = true ->
  exists ds,
    fst (DiscountService.getApplicableDiscounts now (Product._id p) userId db) = inr ds
    /\ In d ds.
Proof.
  intros Hp Hd Hl Hs.
  destruct (DiscountService.getApplicableDiscounts now (Product._id p) userId db)
    as [r db'] eqn:E.
  rewrite (getApplicableDiscounts_run _ _ _ _ _ Hp) in E. injection E as <- <-.
  eexists. split; [done|].
  apply In_sort_percentage_desc, filter_In. split; [done|].
  rewrite Hl, andb_true_r.
  unfold scope_matches in Hs. unfold single_or.
  destruct (Discount.type d); simpl.
  - by rewrite Hs.
  - by rewrite Hs, orb_true_r.
  - destruct (group_of db userId); [|done]. by rewrite Hs, orb_true_r.
  - by rewrite orb_true_r.
Qed.

Lemma X3_witness :
  product_of Ex.db_tie (Product._id Ex.shoe) = Some Ex.shoe
  /\ In Ex.vip (Discounts Ex.db_tie)
  /\ live Ex.now Ex.vip = true
  /\ scope_matches Ex.shoe (group_of Ex.db_tie (Some "u1")) Ex.vip = true
  /\ exists ds,
       fst (DiscountService.getApplicableDiscounts Ex.now (Product._id Ex.shoe)
              (Some "u1") Ex.db_tie) = inr ds
       /\ In Ex.vip ds.
Proof.
  assert (H1 : product_of Ex.db_tie (Product._id Ex.shoe) = Some Ex.shoe) by reflexivity.
  assert (H2 : In Ex.vip (Discounts Ex.db_tie)) by (by left).
  assert (H3 : live Ex.now Ex.vip = true) by reflexivity.
  assert (H4 : scope_matches Ex.shoe (group_of Ex.db_tie (Some "u1")) Ex.vip = true)
    by reflexivity.
  split; [exact H1|]. split; [exact H2|]. split; [exact H3|]. split; [exact H4|].
  exact (X3_every_matching_discount_is_returned Ex.now (Some "u1") Ex.db_tie
           Ex.shoe Ex.vip H1 H2 H3 H4).
Defined.


(** ** The bulk path, product by product *)

(** X4. In the result of [applyBulkDiscounts], the entry of a product has
    no discount exactly when no discount of the pool matches the product,
    and then shows the product's price unchanged; when some discount
    matches, the entry carries one, with its percentage and its type; and
    the discount an entry carries is a discount of the pool that matches
    the product by its type and whose percentage is the highest among
    those that match. *)
Theorem X4_bulk_entry_carries_the_best_match
    (now : Date) (products : list Product.t) (userId : option ObjectId) (db : DB)
    (l : list JSObject) (i : nat) (p : Product.t) (o : JSObject) :
  fst (DiscountService.applyBulkDiscounts now products userId db) = inr l ->
  products !! i = Some p ->
  l !! i = Some o ->
  let matching :=
    DiscountService.productDiscounts
      (pool now products (group_of db userId) db) userId p in
  (matching = [] <-> o !! "hasDiscount" = Some (VBool false))
  /\ (matching = [] ->
      o !! "discount" = None
      /\ o !! "discountedPrice" = Some (VNum (Product.price p)))
  /\ (matching <> [] ->
      exists b,
        o !! "discount" = Some (VDoc b)
        /\ o !! "hasDiscount" = Some (VBool true)
        /\ o !! "discountPercentage" = Some (VNum (Discount.percentage b))
        /\ o !! "discountType" = Some (VStr (Discount.kind_name (Discount.type b))))
  /\ (forall b, o !! "discount" = Some (VDoc b) ->
        is_best matching b
        /\ match Discount.type b with
           | Discount.general => True
           | Discount.category => In (Product.category p) (Discount.categories b)
           | Discount.product => In (Product._id p) (Discount.products b)
           | Discount.userGroup_ => JS.is_truthy userId = true
           end).
Proof.
  intros Hl Hi Ho matching.
  rewrite applyBulkDiscounts_run in Hl. simpl in Hl. injection Hl as <-.
  rewrite list_lookup_fmap, Hi in Ho. simpl in Ho. injection Ho as <-.
  rewrite !priceWith_lookup by (simpl; tauto). fold matching.
  destruct (DiscountService.reduce_max matching) as [b|] eqn:E; simpl.
  - apply reduce_max_is_best in E as Hb.
    unfold reduced_price. simplify_map_eq.
    split; [|split; [|split]].
    + split; [|done]. intros Hm. destruct Hb as [Hin _]. by rewrite Hm in Hin.
    + intros Hm. destruct Hb as [Hin _]. by rewrite Hm in Hin.
    + intros _. by exists b.
    + intros b' [= <-]. split; [done|].
      destruct Hb as [Hin _]. unfold matching, DiscountService.productDiscounts in Hin.
      apply filter_In in Hin as [_ Hf].
      destruct (Discount.type b); simpl in Hf;
        rewrite ?andb_false_r, ?orb_false_r in Hf; simpl in Hf;
        first [by apply includes_In | done].
  - apply reduce_max_nil in E. unfold plain_price. simplify_map_eq.
    split; [done|]. split; [done|]. split; [by intros H|]. intros b [=].
Qed.

Lemma X4_witness :
  fst (DiscountService.applyBulkDiscounts Ex.now [Ex.shoe] None Ex.db_AB)
  = inr [Ex.shoe_bulk]
  /\ [Ex.shoe] !! 0%nat = Some Ex.shoe
  /\ [Ex.shoe_bulk] !! 0%nat = Some Ex.shoe_bulk
  /\ forall b, Ex.shoe_bulk !! "discount" = Some (VDoc b) ->
       is_best (DiscountService.productDiscounts
                  (pool Ex.now [Ex.shoe] (group_of Ex.db_AB None) Ex.db_AB)
                  None Ex.shoe) b.
Proof.
  assert (H1 : fst (DiscountService.applyBulkDiscounts Ex.now [Ex.shoe] None Ex.db_AB)
               = inr [Ex.shoe_bulk])
    by (vm_cast_no_check (@eq_refl (Error + list JSObject) (inr [Ex.shoe_bulk]))).
  assert (H2 : [Ex.shoe] !! 0%nat = Some Ex.shoe) by reflexivity.
  assert (H3 : [Ex.shoe_bulk] !! 0%nat = Some Ex.shoe_bulk) by reflexivity.
  split; [exact H1|]. split; [exact H2|]. split; [exact H3|].
  intros b Hb.
  exact (proj1 (proj2 (proj2 (proj2 (X4_bulk_entry_carries_the_best_match
           Ex.now [Ex.shoe] None Ex.db_AB [Ex.shoe_bulk] 0 Ex.shoe Ex.shoe_bulk
           H1 H2 H3))) b Hb)).
Defined.

(** X5. [applyBulkDiscounts] never fails and never looks a product up: it
    returns one entry per product handed in, leaves the database as it
    was, and returns the same entries whatever the product collection
    holds, so also for products that are not stored. *)
Theorem X5_bulk_never_looks_a_product_up
    (now : Date) (products : list Product.t) (userId : option ObjectId) (db : DB)
    (stored : list Product.t) :
  exists l,
    DiscountService.applyBulkDiscounts now products userId db = (inr l, db)
    /\ length l = length products
    /\ fst (DiscountService.applyBulkDiscounts now products userId
              (mkDB stored (Users db) (Discounts db))) = inr l.
Proof.
  rewrite !applyBulkDiscounts_run.
  eexists. split; [done|]. split; [by rewrite length_map|]. done.
Qed.

(** ** A discount of 100 percent, and the cart *)

Section Cart.

Import CartController.
Local Open Scope Q_scope.

Lemma fold_totals cart a b c :
  fold_left (fun '(totalItems, totalOriginalPrice, totalDiscountedPrice) item =>
      (totalItems + quantity item,
       totalOriginalPrice + originalPrice item * quantity item,
       totalDiscountedPrice + charged item * quantity item))
    cart (a, b, c)
  = (fold_left (fun acc item => acc + quantity item) cart a,
     fold_left (fun acc item => acc + originalPrice item * quantity item) cart b,
     fold_left (fun acc item => acc + charged item * quantity item) cart c).
Proof.
  revert a b c. induction cart as [|i cart IH]; intros a b c; simpl; [done|].
  by rewrite IH.
Qed.

Lemma fold_sum (f : item -> Q) cart a :
  fold_left (fun acc item => acc + f item) cart a == a + sum_over f cart.
Proof.
  revert a. induction cart as [|i cart IH]; intros a; simpl.
  - lra.
  - rewrite IH. lra.
Qed.

Lemma calculateCartTotals_sums cart :
  exists n o c,
    n == sum_over quantity cart
    /\ o == sum_over (fun i => originalPrice i * quantity i) cart
    /\ c == sum_over (fun i => charged i * quantity i) cart
    /\ calculateCartTotals cart
       = mkTotals cart n (JS.parseFloat (JS.toFixed2 c))
           (JS.parseFloat (JS.toFixed2 (o - c))).
Proof.
  unfold calculateCartTotals. rewrite fold_totals.
  eexists _, _, _. split; [|split; [|split; [|reflexivity]]].
  - rewrite (fold_sum quantity). lra.
  - rewrite (fold_sum (fun i => originalPrice i * quantity i)). lra.
  - rewrite (fold_sum (fun i => charged i * quantity i)). lra.
Qed.

Lemma sum_over_nonneg (f : item -> Q) cart :
  (forall i, In i cart -> 0 <= f i) -> 0 <= sum_over f cart.
Proof.
  induction cart as [|i cart IH]; intros H; simpl; [lra|].
  assert (0 <= f i) by (apply H; by left).
  assert (0 <= sum_over f cart) by (apply IH; intros j Hj; apply H; by right).
  lra.
Qed.

Lemma charged_nonneg i :
  0 <= originalPrice i ->
  (forall d, discountedPrice i = Some d -> 0 <= d) ->
  0 <= charged i.
Proof.
  intros Ho Hd. unfold charged.
  destruct (discountedPrice i) as [d|]; [|done].
  destruct (Qeq_bool d 0); [done|]. by apply Hd.
Qed.

Lemma sum_over_le (f g : item -> Q) cart :
  (forall i, In i cart -> f i <= g i) -> sum_over f cart <= sum_over g cart.
Proof.
  induction cart as [|i cart IH]; intros H; simpl; [lra|].
  assert (f i <= g i) by (apply H; by left).
  assert (sum_over f cart <= sum_over g cart) by (apply IH; intros j Hj; apply H; by right).
  lra.
Qed.

Lemma toFixed2_nonneg (a : Q) : 0 <= a -> 0 <= JS.toFixed2 a.
Proof.
  intros Ha. unfold JS.toFixed2. cbv zeta.
  assert (E : Qle_bool 0 a = true) by (by apply Qle_bool_iff).
  rewrite E. cbn [negb].
  destruct (Qle_bool (inject_Z (10 ^ 21)) a); [done|].
  apply Qle_shift_div_l; [lra|]. rewrite Qmult_0_l.
  apply (Math_round_nonneg (a * 100)). lra.
Qed.

End Cart.

(** X6. When either pricing path selects a discount of 100 percent, the
    discounted price is 0; and a cart item carrying the result (the
    product's price as [originalPrice], that 0 as [discountedPrice]) is
    totalled by [calculateCartTotals] at the original price, with a total
    discount of 0: [item.discountedPrice || item.originalPrice] takes a
    discounted price of 0 for an absent one.  The price is moderate, the
    quantity a whole number that is not negative, and the line total, which
    [totalPrice] meets to within a cent, at most 10^12. *)
Theorem X6_full_discount_is_charged_in_full
    (now : Date) (db : DB) (userId : option ObjectId) (p : Product.t)
    (o : JSObject) (b : Discount.t) (q : Q) (n : Z) :
  priced now db userId p o ->
  o !! "discount" = Some (VDoc b) ->
  (Discount.percentage b == 100)%Q ->
  moderate (Product.price p) ->
  (q == inject_Z n)%Q ->
  0 <= n ->
  (Product.price p * q <= inject_Z (10 ^ 12))%Q ->
  exists dp,
    o !! "discountedPrice" = Some (VNum dp)
    /\ (dp == 0)%Q
    /\ let t := CartController.calculateCartTotals
                  [CartController.mkItem (Product._id p) q (Product.price p) (Some dp)] in
       (Qabs (CartController.totalPrice t - Product.price p * q) < 1 # 100)%Q
       /\ (CartController.totalDiscount t == 0)%Q.
Proof.
  intros Hpr Hb Hp [Hx _] Hq Hn Hxq.
  destruct (priced_selected _ _ _ _ _ _ Hpr Hb) as (_ & Hdp & _).
  exists (discounted (Product.price p) (Discount.percentage b)).
  split; [done|].
  assert (Hz : (discounted (Product.price p) (Discount.percentage b) == 0)%Q).
  { rewrite (discounted_comp _ _ _ Hp). unfold discounted.
    rewrite (Math_round_Z _ 0); [reflexivity|]. field. }
  split; [done|].
  destruct (calculateCartTotals_sums
              [CartController.mkItem (Product._id p) q (Product.price p)
                 (Some (discounted (Product.price p) (Discount.percentage b)))])
    as (n0 & o0 & c0 & _ & Ho & Hc0 & ->).
  simpl in Ho, Hc0. unfold CartController.charged in Hc0. simpl in Hc0.
  apply Qeq_bool_iff in Hz as Hzb. rewrite Hzb in Hc0.
  cbv zeta. cbn [CartController.totalPrice CartController.totalDiscount].
  unfold JS.parseFloat.
  assert (Hq0 : (0 <= q)%Q).
  { rewrite Hq. change 0%Q with (inject_Z 0). by rewrite <- Zle_Qle. }
  assert (Hxq0 : (0 <= Product.price p * q)%Q) by nra.
  assert (H12 : (inject_Z (10 ^ 12) < inject_Z (10 ^ 21))%Q) by reflexivity.
  split.
  - assert (Hc : (Qabs (JS.toFixed2 c0 - c0) <= 1 # 200)%Q).
    { apply toFixed2_close. apply Qabs_Qlt_condition. split; lra. }
    apply Qabs_Qle_condition in Hc. destruct Hc as [Hc1 Hc2].
    apply Qabs_Qlt_condition. split; lra.
  - rewrite toFixed2_whole_cents.
    + rewrite Ho, Hc0. lra.
    + exists 0%Z. rewrite Ho, Hc0. field.
Qed.

Lemma X6_witness :
  priced Ex.now Ex2.db_free None Ex.shoe Ex2.shoe_free
  /\ Ex2.shoe_free !! "discount" = Some (VDoc Ex2.free)
  /\ (Discount.percentage Ex2.free == 100)%Q
  /\ moderate (Product.price Ex.shoe)
  /\ (2 == inject_Z 2)%Q
  /\ 0 <= 2
  /\ (Product.price Ex.shoe * 2 <= inject_Z (10 ^ 12))%Q
  /\ exists dp,
       Ex2.shoe_free !! "discountedPrice" = Some (VNum dp)
       /\ (dp == 0)%Q
       /\ let t := CartController.calculateCartTotals
                     [CartController.mkItem (Product._id Ex.shoe) 2
                        (Product.price Ex.shoe) (Some dp)] in
          (Qabs (CartController.totalPrice t - Product.price Ex.shoe * 2) < 1 # 100)%Q
          /\ (CartController.totalDiscount t == 0)%Q.
Proof.
  assert (H1 : priced Ex.now Ex2.db_free None Ex.shoe Ex2.shoe_free).
  { apply (priced_single _ _ _ _ _ "p1"); [reflexivity|].
    vm_cast_no_check (@eq_refl (Error + JSObject) (inr Ex2.shoe_free)). }
  assert (H2 : Ex2.shoe_free !! "discount" = Some (VDoc Ex2.free)) by (by vm_compute).
  assert (H3 : (Discount.percentage Ex2.free == 100)%Q) by reflexivity.
  assert (H4 : moderate (Product.price Ex.shoe)) by (by vm_compute).
  assert (H6 : (2 == inject_Z 2)%Q) by reflexivity.
  assert (H7 : 0 <= 2) by lia.
  assert (H8 : (Product.price Ex.shoe * 2 <= inject_Z (10 ^ 12))%Q) by (by vm_compute).
  split; [exact H1|]. split; [exact H2|]. split; [exact H3|].
  split; [exact H4|]. split; [exact H6|].
  split; [exact H7|]. split; [exact H8|].
  exact (X6_full_discount_is_charged_in_full _ _ _ _ _ _ 2 2 H1 H2 H3 H4 H6 H7 H8).
Defined.

(** X7. For a cart of at most 1000 lines with whole quantities, no
    negative amount and totals of at most 10^9, [calculateCartTotals]
    returns the items as given and the sum of the quantities; [totalPrice]
    lies within a cent of the sum of quantity times charged price (the
    discounted price if present and not 0, the original price otherwise),
    and [totalPrice + totalDiscount] within two cents of the sum of
    quantity times original price. *)
Theorem X7_cart_totals_are_the_sums
    (cart : list CartController.item) :
  cart_moderate cart ->
  let t := CartController.calculateCartTotals cart in
  CartController.items t = cart
  /\ (CartController.totalItems t == sum_over CartController.quantity cart)%Q
  /\ (Qabs (CartController.totalPrice t
            - sum_over (fun i => CartController.charged i * CartController.quantity i)
                cart) < 1 # 100)%Q
  /\ (Qabs (CartController.totalPrice t + CartController.totalDiscount t
            - sum_over (fun i => CartController.originalPrice i
                                 * CartController.quantity i) cart) < 2 # 100)%Q.
Proof.
  intros (_ & Hi & _ & Ho9 & Hc9).
  destruct (calculateCartTotals_sums cart) as (n & o & c & Hn & Ho & Hcc & ->).
  cbv zeta.
  cbn [CartController.items CartController.totalItems CartController.totalPrice
       CartController.totalDiscount].
  unfold JS.parseFloat.
  assert (Hq0 : forall i, In i cart -> (0 <= CartController.quantity i)%Q).
  { intros i Hin. destruct (Hi i Hin) as ((k & Hk & E) & _).
    rewrite E. change 0%Q with (inject_Z 0). by rewrite <- Zle_Qle. }
  assert (Ho0 : (0 <= o)%Q).
  { rewrite Ho. apply sum_over_nonneg. intros i Hin.
    destruct (Hi i Hin) as (_ & H1 & _). specialize (Hq0 i Hin). nra. }
  assert (Hc0 : (0 <= c)%Q).
  { rewrite Hcc. apply sum_over_nonneg. intros i Hin.
    destruct (Hi i Hin) as (_ & H1 & H2). specialize (Hq0 i Hin).
    pose proof (charged_nonneg i H1 H2). nra. }
  rewrite <- Ho in Ho9. rewrite <- Hcc in Hc9.
  assert (H9 : (inject_Z (10 ^ 9) < inject_Z (10 ^ 21))%Q) by reflexivity.
  assert (H1 : (Qabs (JS.toFixed2 c - c) <= 1 # 200)%Q).
  { apply toFixed2_close. apply Qabs_Qlt_condition. split; lra. }
  assert (H2 : (Qabs (JS.toFixed2 (o - c) - (o - c)) <= 1 # 200)%Q).
  { apply toFixed2_close. apply Qabs_Qlt_condition. split; lra. }
  apply Qabs_Qle_condition in H1, H2. destruct H1 as [H1 H1'], H2 as [H2 H2'].
  split; [done|]. split; [done|].
  rewrite <- Ho, <- Hcc.
  split; apply Qabs_Qlt_condition; split; lra.
Qed.

Lemma X7_witness :
  cart_moderate Ex2.cart
  /\ (CartController.totalItems (CartController.calculateCartTotals Ex2.cart)
      == sum_over CartController.quantity Ex2.cart)%Q
  /\ (Qabs (CartController.totalPrice (CartController.calculateCartTotals Ex2.cart)
            - sum_over (fun i => CartController.charged i * CartController.quantity i)
                Ex2.cart) < 1 # 100)%Q.
Proof.
  assert (Hm : cart_moderate Ex2.cart).
  { split; [simpl; lia|]. split; [|split; [|split]]; try (by vm_compute).
    intros i [<- | [<- | []]].
    - split; [exists 2%Z; split; [lia | reflexivity]|]. split; [by vm_compute|].
      intros d Hd. injection Hd as <-. by vm_compute.
    - split; [exists 3%Z; split; [lia | reflexivity]|]. split; [by vm_compute|].
      intros d Hd. discriminate Hd. }
  split; [exact Hm|].
  destruct (X7_cart_totals_are_the_sums Ex2.cart Hm) as (_ & H2 & H3 & _).
  split; [exact H2 | exact H3].
Defined.

(** X8. When no quantity is negative and no discounted price exceeds its
    original price, the [totalDiscount] of [calculateCartTotals] is not
    negative; the totals of the empty cart are all 0. *)
Theorem X8_cart_discount_is_not_negative
    (cart : list CartController.item) :
  (forall i, In i cart ->
     (0 <= CartController.quantity i)%Q
     /\ forall d, CartController.discountedPrice i = Some d ->
          (d <= CartController.originalPrice i)%Q) ->
  (0 <= CartController.totalDiscount (CartController.calculateCartTotals cart))%Q
  /\ (CartController.totalItems (CartController.calculateCartTotals []) == 0)%Q
  /\ (CartController.totalPrice (CartController.calculateCartTotals []) == 0)%Q
  /\ (CartController.totalDiscount (CartController.calculateCartTotals []) == 0)%Q.
Proof.
  intros H. split; [|by vm_compute].
  destruct (calculateCartTotals_sums cart) as (n & o & c & _ & Ho & Hc & ->).
  simpl. unfold JS.parseFloat. apply toFixed2_nonneg.
  rewrite Ho, Hc.
  assert (Hle : (sum_over (fun i => CartController.charged i * CartController.quantity i) cart
                 <= sum_over (fun i => CartController.originalPrice i
                                       * CartController.quantity i) cart)%Q).
  { apply sum_over_le. intros i Hi. destruct (H i Hi) as [Hq Hd].
    assert (Hch : (CartController.charged i <= CartController.originalPrice i)%Q).
    { unfold CartController.charged.
      destruct (CartController.discountedPrice i) as [d|]; [|lra].
      destruct (Qeq_bool d 0); [lra | by apply Hd]. }
    nra. }
  lra.
Qed.

Lemma X8_witness :
  (forall i, In i Ex2.cart ->
     (0 <= CartController.quantity i)%Q
     /\ forall d, CartController.discountedPrice i = Some d ->
          (d <= CartController.originalPrice i)%Q)
  /\ (0 <= CartController.totalDiscount (CartController.calculateCartTotals Ex2.cart))%Q.
Proof.
  assert (H : forall i, In i Ex2.cart ->
     (0 <= CartController.quantity i)%Q
     /\ forall d, CartController.discountedPrice i = Some d ->
          (d <= CartController.originalPrice i)%Q).
  { intros i [<- | [<- | []]]; (split; [by vm_compute|]); intros d Hd.
    - injection Hd as <-. by vm_compute.
    - discriminate Hd. }
  split; [exact H|].
  exact (proj1 (X8_cart_discount_is_not_negative Ex2.cart H)).
Defined.


(** ** Creating and updating discounts *)

Section Admin.

Import DiscountService.
Local Open Scope Q_scope.

Lemma percentage_ok_range (q : Q) :
  DiscountModel.percentage_ok q = true <-> 0 <= q <= 100.
Proof.
  unfold DiscountModel.percentage_ok.
  rewrite andb_true_iff, !Qle_bool_iff. tauto.
Qed.

Lemma construct_Some newId now body doc :
  DiscountModel.construct newId now body = Some doc ->
  Discount._id doc = newId
  /\ Body.percentage body = Some (Discount.percentage doc)
  /\ 0 <= Discount.percentage doc <= 100.
Proof.
  unfold DiscountModel.construct. intros H.
  destruct (Body.name body) as [nm|]; [|done].
  destruct (Body.percentage body) as [pc|]; [|done].
  destruct (Body.type body ≫= DiscountModel.kind_of_name); [|done].
  destruct (Body.startDate body); [|done].
  destruct (Body.endDate body); [|done].
  destruct (DiscountModel.required_ok nm && DiscountModel.percentage_ok pc) eqn:E;
    [|done].
  apply andb_true_iff in E as [_ E].
  injection H as <-. simpl. by apply percentage_ok_range in E.
Qed.

Lemma createDiscount_cases newId now body db :
  (exists doc,
     DiscountModel.construct newId now body = Some doc
     /\ createDiscount newId now body db
        = (inr (DiscountModel.pre_save now doc),
           mkDB (Products db) (Users db)
             (Discounts db ++ [DiscountModel.pre_save now doc])))
  \/ (DiscountModel.construct newId now body = None
      /\ createDiscount newId now body db
         = (inl (mkError "Discount validation failed"), db)).
Proof.
  unfold createDiscount, bind, DiscountModel.save_new, ret.
  destruct (DiscountModel.construct newId now body) as [doc|].
  - left. by exists doc.
  - by right.
Qed.

Lemma In_replace_by_id id d' l x :
  In x (DiscountModel.replace_by_id id d' l) -> x = d' \/ In x l.
Proof.
  induction l as [|d l IH]; simpl; [tauto|].
  destruct (String.eqb (Discount._id d) id); simpl; intuition.
Qed.

Lemma replace_by_id_keeps id d' l x :
  In x l -> Discount._id x <> id -> In x (DiscountModel.replace_by_id id d' l).
Proof.
  induction l as [|d l IH]; simpl; [tauto|].
  intros [-> | Hin] Hne.
  - destruct (String.eqb (Discount._id x) id) eqn:E.
    + by apply String.eqb_eq in E.
    + by left.
  - destruct (String.eqb (Discount._id d) id); right; [done | by apply IH].
Qed.

Lemma replace_by_id_ids id d' l :
  Discount._id d' = id ->
  map Discount._id (DiscountModel.replace_by_id id d' l) = map Discount._id l.
Proof.
  intros Hid. induction l as [|d l IH]; simpl; [done|].
  destruct (String.eqb (Discount._id d) id) eqn:E; simpl.
  - apply String.eqb_eq in E. by rewrite Hid, E.
  - by rewrite IH.
Qed.

Lemma replace_by_id_In id d' l d :
  List.find (fun d => String.eqb (Discount._id d) id) l = Some d ->
  In d' (DiscountModel.replace_by_id id d' l).
Proof.
  induction l as [|x l IH]; simpl; [done|].
  destruct (String.eqb (Discount._id x) id); [by left|].
  intros H. right. by apply IH.
Qed.

Lemma find_by_id_None id (l : list Discount.t) :
  (forall d, In d l -> Discount._id d <> id) ->
  List.find (fun d => String.eqb (Discount._id d) id) l = None.
Proof.
  induction l as [|x l IH]; simpl; [done|]. intros H.
  destruct (String.eqb (Discount._id x) id) eqn:E.
  - apply String.eqb_eq in E. exfalso. apply (H x); [by left | done].
  - apply IH. intros d Hd. apply H. by right.
Qed.

End Admin.

(** X9. When [createDiscount] succeeds, the new discount is appended to the
    stored ones, which are otherwise left as they were; it carries the new
    id and a percentage within [0, 100]; and its [active] flag is set by
    the window alone: [true] exactly when the window contains the time of
    the call, whatever [active] the request carried. *)
Theorem X9_created_discount_is_active_by_its_window
    (newId : ObjectId) (now : Date) (body : Body.t) (db db' : DB) (d : Discount.t) :
  DiscountService.createDiscount newId now body db = (inr d, db') ->
  Products db' = Products db /\ Users db' = Users db
  /\ Discounts db' = Discounts db ++ [d]
  /\ Discount._id d = newId
  /\ (0 <= Discount.percentage d <= 100)%Q
  /\ (Discount.active d = true
      <-> Discount.startDate d <= now /\ now <= Discount.endDate d).
Proof.
  intros H.
  destruct (createDiscount_cases newId now body db)
    as [(doc & Hc & E) | (_ & E)]; rewrite E in H; [|done].
  injection H as <- <-. simpl.
  destruct (construct_Some _ _ _ _ Hc) as (Hid & _ & Hr).
  split; [done|]. split; [done|]. split; [done|]. split; [done|].
  split; [exact Hr|].
  rewrite andb_true_iff, Z.leb_le, Z.geb_le. tauto.
Qed.

Lemma X9_witness :
  exists d db',
    DiscountService.createDiscount "dA" Ex.now Ex.new_A Ex.db_none = (inr d, db')
    /\ Discounts db' = Discounts Ex.db_none ++ [d]
    /\ (Discount.active d = true
        <-> Discount.startDate d <= Ex.now /\ Ex.now <= Discount.endDate d).
Proof.
  eexists _, _.
  assert (H : DiscountService.createDiscount "dA" Ex.now Ex.new_A Ex.db_none
              = (inr (DiscountModel.pre_save Ex.now
                        (Discount.mk "dA" "A" None 10 Discount.general [] [] None
                           0 100 true Ex.now)),
                 mkDB [Ex.shoe] [Ex.alice]
                   [DiscountModel.pre_save Ex.now
                      (Discount.mk "dA" "A" None 10 Discount.general [] [] None
                         0 100 true Ex.now)])) by reflexivity.
  split; [exact H|].
  destruct (X9_created_discount_is_active_by_its_window _ _ _ _ _ _ H)
    as (_ & _ & H3 & _ & _ & H6).
  split; [exact H3 | exact H6].
Defined.

(** X10. If every stored discount has its percentage within [0, 100], the
    same holds after [createDiscount] and after [updateDiscount] with a
    body of plain schema paths, whether they succeed or fail. *)
Theorem X10_percentages_stay_in_range (db : DB) :
  percentages_in_range db ->
  (forall newId now body,
     percentages_in_range (snd (DiscountService.createDiscount newId now body db)))
  /\ (forall id body,
        percentages_in_range (snd (DiscountService.updateDiscount id body db))).
Proof.
  intros Hdb. split.
  - intros newId now body.
    destruct (createDiscount_cases newId now body db)
      as [(doc & Hc & E) | (_ & E)]; rewrite E; simpl; [|done].
    intros d Hd. simpl in Hd. apply in_app_or in Hd as [Hd | [<- | []]].
    + by apply Hdb.
    + simpl. by destruct (construct_Some _ _ _ _ Hc) as (_ & _ & Hr).
  - intros id body.
    unfold DiscountService.updateDiscount, DiscountModel.findByIdAndUpdate.
    destruct (DiscountModel.update_ok body) eqn:Hok; [|done].
    destruct (List.find _ (Discounts db)) as [d0|] eqn:Hf; [|done].
    simpl. intros d Hd. apply In_replace_by_id in Hd as [-> | Hd]; [|by apply Hdb].
    simpl. apply find_some in Hf as [Hin _].
    unfold DiscountModel.update_ok in Hok.
    apply andb_true_iff in Hok as [Hok _]. apply andb_true_iff in Hok as [_ Hp].
    destruct (Body.percentage body) as [pc|]; simpl.
    + by apply percentage_ok_range.
    + by apply Hdb.
Qed.

Lemma X10_witness :
  percentages_in_range Ex.db_AB
  /\ percentages_in_range
       (snd (DiscountService.updateDiscount "dA" Ex.shorten Ex.db_AB)).
Proof.
  assert (H : percentages_in_range Ex.db_AB).
  { intros d [<- | [<- | []]]; by vm_compute. }
  split; [exact H|].
  exact (proj2 (X10_percentages_stay_in_range Ex.db_AB H) "dA" Ex.shorten).
Defined.

(** X11. A creation request without a percentage, or with a percentage
    below 0 or above 100, is answered by the controller with status 400,
    and nothing is stored. *)
Theorem X11_percentage_out_of_range_is_refused
    (newId : ObjectId) (now : Date) (body : Body.t) (db : DB) :
  (Body.percentage body = None
   \/ exists pc, Body.percentage body = Some pc /\ ~ (0 <= pc <= 100)%Q) ->
  exists msg,
    DiscountController.createDiscount newId now body db
    = (inr (Failure 400 msg), db).
Proof.
  intros Hbad. exists "Discount validation failed".
  unfold DiscountController.createDiscount, try_catch, bind.
  destruct (createDiscount_cases newId now body db)
    as [(doc & Hc & E) | (_ & E)]; rewrite E; [|done].
  exfalso. destruct (construct_Some _ _ _ _ Hc) as (_ & Hpc & Hr).
  destruct Hbad as [Hn | (pc & Hs & Hout)]; [congruence|].
  rewrite Hs in Hpc. injection Hpc as ->. by apply Hout.
Qed.

Lemma X11_witness :
  (Body.percentage Ex2.too_much = None
   \/ exists pc, Body.percentage Ex2.too_much = Some pc /\ ~ (0 <= pc <= 100)%Q)
  /\ exists msg,
       DiscountController.createDiscount "dT" Ex.now Ex2.too_much Ex.db_AB
       = (inr (Failure 400 msg), Ex.db_AB).
Proof.
  assert (H : Body.percentage Ex2.too_much = None
              \/ exists pc, Body.percentage Ex2.too_much = Some pc
                            /\ ~ (0 <= pc <= 100)%Q).
  { right. exists 150%Q. split; [reflexivity|]. intros [_ H]. by vm_compute in H. }
  split; [exact H|].
  exact (X11_percentage_out_of_range_is_refused "dT" Ex.now Ex2.too_much Ex.db_AB H).
Defined.

(** X12. A successful [updateDiscount] with a body of plain schema paths
    leaves products and users alone and keeps the ids of the stored
    discounts and their order; every discount with another id is kept as it
    was.  When no discount has the id, the result is null and the database
    is unchanged.  When a discount has the id, the result is not null: it
    is stored in its place, has the id asked for, and carries each of name,
    percentage, dates and [active] flag as the body gives it, or as it was
    stored where the body does not give it. *)
Theorem X12_update_touches_one_discount
    (id : ObjectId) (body : Body.t) (db db' : DB) (r : option Discount.t) :
  DiscountService.updateDiscount id body db = (inr r, db') ->
  Products db' = Products db /\ Users db' = Users db
  /\ map Discount._id (Discounts db') = map Discount._id (Discounts db)
  /\ (forall d, In d (Discounts db) -> Discount._id d <> id -> In d (Discounts db'))
  /\ match List.find (fun d => String.eqb (Discount._id d) id) (Discounts db) with
     | None => r = None /\ db' = db
     | Some d0 =>
         exists d',
           r = Some d' /\ In d' (Discounts db') /\ Discount._id d' = id
           /\ Discount.name d' = default (Discount.name d0) (Body.name body)
           /\ Discount.percentage d'
              = default (Discount.percentage d0) (Body.percentage body)
           /\ Discount.startDate d'
              = default (Discount.startDate d0) (Body.startDate body)
           /\ Discount.endDate d' = default (Discount.endDate d0) (Body.endDate body)
           /\ Discount.active d' = default (Discount.active d0) (Body.active body)
     end.
Proof.
  unfold DiscountService.updateDiscount, DiscountModel.findByIdAndUpdate.
  destruct (DiscountModel.update_ok body); [|done].
  destruct (List.find _ (Discounts db)) as [d0|] eqn:Hf.
  - intros [= <- <-]. simpl.
    assert (Hid : Discount._id d0 = id).
    { apply find_some in Hf as [_ E]. by apply String.eqb_eq in E. }
    split; [done|]. split; [done|].
    split; [by apply replace_by_id_ids|].
    split; [intros d Hd Hne; by apply replace_by_id_keeps|].
    eexists. split; [done|]. split; [by eapply replace_by_id_In|]. done.
  - intros [= <- <-]. by repeat split.
Qed.

Lemma X12_witness :
  exists r db',
    DiscountService.updateDiscount "dA" Ex2.rename Ex.db_AB = (inr r, db')
    /\ map Discount._id (Discounts db') = map Discount._id (Discounts Ex.db_AB)
    /\ (forall d, In d (Discounts Ex.db_AB) -> Discount._id d <> "dA" ->
          In d (Discounts db')).
Proof.
  eexists _, _.
  assert (H : DiscountService.updateDiscount "dA" Ex2.rename Ex.db_AB
              = (inr (Some (DiscountModel.apply_update Ex2.rename Ex.A)),
                 mkDB [Ex.shoe] [Ex.alice]
                   [DiscountModel.apply_update Ex2.rename Ex.A; Ex.B]))
    by reflexivity.
  split; [exact H|].
  destruct (X12_update_touches_one_discount _ _ _ _ _ H) as (_ & _ & H3 & H4 & _).
  split; [exact H3 | exact H4].
Defined.




(** ** Listing discounts *)

Section Listing.

Import Mongo DiscountService.

Lemma In_insert_newest d x l :
  In x (Filter.insert_newest d l) <-> x = d \/ In x l.
Proof.
  induction l as [|y l IH]; simpl; [intuition congruence|].
  destruct (_ <? _); simpl; rewrite ?IH; intuition congruence.
Qed.

Lemma In_sort_createdAt_desc x l :
  In x (Filter.sort_createdAt_desc l) <-> In x l.
Proof.
  induction l as [|d l IH]; simpl; [tauto|].
  rewrite In_insert_newest, IH. intuition congruence.
Qed.

Lemma getActiveDiscounts_run now db :
  getActiveDiscounts now db
  = (inr (sort_percentage_desc (List.filter (live now) (Discounts db))), db).
Proof.
  unfold getActiveDiscounts, Discount_find_sorted. do 3 f_equal.
  apply filter_ext. intros d. unfold matches, live, in_window. simpl.
  by rewrite eqb_true_r, !andb_true_r, !andb_assoc.
Qed.

End Listing.

(** X14. [getActiveDiscounts] returns exactly the stored discounts that
    are in their window and flagged active, in an order in which the
    percentages never increase; and whatever [getApplicableDiscounts]
    returns for a product and a user is among them. *)
Theorem X14_applicable_discounts_are_active_ones (now : Date) (db : DB) :
  exists act,
    DiscountService.getActiveDiscounts now db = (inr act, db)
    /\ (forall d, In d act <-> In d (Discounts db) /\ live now d = true)
    /\ descending act
    /\ (forall productId userId ds d,
          fst (DiscountService.getApplicableDiscounts now productId userId db) = inr ds ->
          In d ds -> In d act).
Proof.
  rewrite getActiveDiscounts_run. eexists. split; [done|].
  split; [intros d; by rewrite In_sort_percentage_desc, filter_In|].
  split; [apply sort_descending|].
  intros productId userId ds d Hds Hd.
  apply In_sort_percentage_desc, filter_In.
  destruct (product_of db productId) as [p|] eqn:Hp.
  - rewrite (getApplicableDiscounts_run _ _ _ _ _ Hp) in Hds.
    simpl in Hds. injection Hds as <-.
    apply In_sort_percentage_desc, filter_In in Hd as [Hin Hf].
    apply andb_true_iff in Hf as [_ Hl]. done.
  - by rewrite (getApplicableDiscounts_missing _ _ _ _ Hp) in Hds.
Qed.



(** X16. In [getAllDiscounts] the parameters [active=true] and
    [active=false] split the listing: a discount of the unfiltered listing
    (all stored discounts of the requested type) is in exactly one of the
    two, in the first exactly when it is flagged active with its window
    around [now]; any other value of [active] gives the unfiltered listing. *)
Theorem X16_active_filters_split_the_listing
    (now : Date) (type : option string) (db : DB) :
  exists yes no every,
    DiscountController.getAllDiscounts now (Some "true") type db
    = (inr (Success 200 yes), db)
    /\ DiscountController.getAllDiscounts now (Some "false") type db
       = (inr (Success 200 no), db)
    /\ DiscountController.getAllDiscounts now None type db
       = (inr (Success 200 every), db)
    /\ (forall d,
          (In d every
           <-> In d (Discounts db)
               /\ match JS.truthy type with
                  | Some t => Discount.kind_name (Discount.type d) = t
                  | None => True
                  end)
          /\ (In d yes <-> In d every /\ live now d = true)
          /\ (In d no <-> In d every /\ live now d = false))
    /\ (forall a, a <> "true" -> a <> "false" ->
          DiscountController.getAllDiscounts now (Some a) type db
          = (inr (Success 200 every), db)).
Proof.
  unfold DiscountController.getAllDiscounts, try_catch, bind, Filter.find_newest_first, ret.
  eexists _, _, _. split; [reflexivity|]. split; [reflexivity|]. split; [reflexivity|].
  split.
  - intros d. rewrite !In_sort_createdAt_desc, !filter_In.
    unfold Filter.matches, live, in_window.
    destruct (JS.truthy type) as [t|]; simpl;
      rewrite ?andb_true_r, ?orb_false_r, ?eqb_true_r.
    + rewrite !andb_true_iff, String.eqb_eq.
      destruct (Discount.active d); simpl;
        destruct (Z.leb_spec (Discount.startDate d) now);
        destruct (Z.leb_spec now (Discount.endDate d));
        destruct (Z.ltb_spec now (Discount.startDate d));
        destruct (Z.ltb_spec (Discount.endDate d) now);
        simpl; try lia; intuition congruence.
    + destruct (Discount.active d); simpl;
        destruct (Z.leb_spec (Discount.startDate d) now);
        destruct (Z.leb_spec now (Discount.endDate d));
        destruct (Z.ltb_spec now (Discount.startDate d));
        destruct (Z.ltb_spec (Discount.endDate d) now);
        simpl; try lia; intuition congruence.
  - intros a Ht Hf. unfold JS.truthy.
    destruct (String.eqb a EmptyString) eqn:E0; [done|].
    destruct (String.eqb a "true") eqn:E1; [by apply String.eqb_eq in E1|].
    destruct (String.eqb a "false") eqn:E2; [by apply String.eqb_eq in E2|].
    done.
Qed.

(** ** The product page and the soft delete *)

Section Page.

Import Mongo DiscountService.



Lemma with_isActive_back (b : bool) (p : Product.t) :
  with_isActive (Product.isActive p) (with_isActive b p) = p.
Proof. by destruct p. Qed.

Lemma find_set_isActive id b l p :
  List.find (fun p => String.eqb (Product._id p) id) l = Some p ->
  List.find (fun p => String.eqb (Product._id p) id) (set_isActive_by_id id b l)
  = Some (with_isActive b p).
Proof.
  induction l as [|x l IH]; simpl; [done|].
  destruct (String.eqb (Product._id x) id) eqn:E; simpl.
  - rewrite E. by intros [= ->].
  - rewrite E. done.
Qed.

Lemma find_set_isActive_any pid id b l :
  match List.find (fun p => String.eqb (Product._id p) pid) l with
  | Some q =>
      exists q',
        List.find (fun p => String.eqb (Product._id p) pid) (set_isActive_by_id id b l)
        = Some q'
        /\ Product.price q' = Product.price q
        /\ Product.category q' = Product.category q
  | None =>
      List.find (fun p => String.eqb (Product._id p) pid) (set_isActive_by_id id b l)
      = None
  end.
Proof.
  induction l as [|x l IH]; simpl; [done|].
  destruct (String.eqb (Product._id x) id) eqn:E; simpl;
    destruct (String.eqb (Product._id x) pid) eqn:E';
    first [exact IH | by eexists | destruct (List.find _ l); by eauto].
Qed.

Lemma set_isActive_back id b l p :
  List.find (fun p => String.eqb (Product._id p) id) l = Some p ->
  set_isActive_by_id id (Product.isActive p) (set_isActive_by_id id b l) = l.
Proof.
  induction l as [|x l IH]; simpl; [done|].
  destruct (String.eqb (Product._id x) id) eqn:E; simpl.
  - intros [= ->]. rewrite E. by rewrite with_isActive_back.
  - intros H. rewrite E. by rewrite IH.
Qed.

End Page.



(** X18. [deleteProduct] on a stored product only clears its [isActive]
    flag: the product stays stored, users and discounts are untouched, the
    product page answers 404 for it, [calculateProductDiscount] prices
    every product as before, and [restoreProduct] brings back the database
    as it was when the product was active before. *)
Theorem X18_deleted_product_is_hidden_and_still_priced
    (now : Date) (id : ObjectId) (userId : option ObjectId) (db : DB)
    (p : Product.t) :
  product_of db id = Some p ->
  exists db',
    ProductController.deleteProduct id db
    = (inr (Success 200 "Product deactivated successfully"), db')
    /\ product_of db' id = Some (with_isActive false p)
    /\ Users db' = Users db /\ Discounts db' = Discounts db
    /\ fst (ProductController.getProductById now id userId db')
       = inr (Failure 404 "Product not found")
    /\ (forall productId,
          fst (DiscountService.calculateProductDiscount now productId userId db')
          = fst (DiscountService.calculateProductDiscount now productId userId db))
    /\ (Product.isActive p = true ->
        snd (ProductController.restoreProduct id db') = db).
Proof.
  intros Hp.
  unfold ProductController.deleteProduct, try_catch, bind,
    Product_findByIdAndUpdate_isActive.
  fold (product_of db id). rewrite Hp. simpl.
  set (db' := mkDB _ _ _).
  assert (Hp' : product_of db' id = Some (with_isActive false p))
    by (by apply find_set_isActive).
  exists db'. split; [done|]. split; [done|]. split; [done|]. split; [done|].
  split; [|split].
  - unfold ProductController.getProductById, try_catch, bind, Product_findById.
    fold (product_of db' id). by rewrite Hp'.
  - intros productId.
    pose proof (find_set_isActive_any productId id false (Products db)) as H.
    fold (product_of db productId) in H.
    destruct (product_of db productId) as [q|] eqn:Hq.
    + destruct H as (q' & Hq' & Hprice & Hcat).
      rewrite (calculateProductDiscount_run _ _ _ _ _ Hq).
      rewrite (calculateProductDiscount_run now productId userId db' q' Hq').
      simpl. by rewrite Hprice, Hcat.
    + rewrite (calculateProductDiscount_missing _ _ _ _ Hq).
      by rewrite (calculateProductDiscount_missing now productId userId db' H).
  - intros Ha.
    unfold ProductController.restoreProduct, try_catch, bind,
      Product_findByIdAndUpdate_isActive.
    fold (product_of db' id). rewrite Hp'. simpl.
    rewrite <- Ha at 1. rewrite (set_isActive_back _ _ _ _ Hp). by destruct db.
Qed.

Lemma X18_witness :
  product_of Ex.db_AB "p1" = Some Ex.shoe
  /\ exists db',
       ProductController.deleteProduct "p1" Ex.db_AB
       = (inr (Success 200 "Product deactivated successfully"), db')
       /\ fst (ProductController.getProductById Ex.now "p1" None db')
          = inr (Failure 404 "Product not found")
       /\ (Product.isActive Ex.shoe = true ->
           snd (ProductController.restoreProduct "p1" db') = Ex.db_AB).
Proof.
  split; [reflexivity|].
  destruct (X18_deleted_product_is_hidden_and_still_priced Ex.now "p1" None Ex.db_AB
              Ex.shoe eq_refl)
    as (db' & H1 & _ & _ & _ & H5 & _ & H7).
  exists db'. split; [exact H1|]. split; [exact H5 | exact H7].
Defined.

(** ** Deleting a discount *)

Section Delete.

Import Mongo DiscountService.
Local Open Scope Q_scope.

Lemma remove_by_id_filter id (l : list Discount.t) :
  NoDup (map Discount._id l) ->
  remove_by_id id l
  = List.filter (fun x => negb (String.eqb (Discount._id x) id)) l.
Proof.
  induction l as [|d l IH]; simpl; [done|].
  intros Hnd. apply NoDup_cons in Hnd as [Hd Hnd].
  destruct (String.eqb (Discount._id d) id) eqn:E; simpl.
  - apply String.eqb_eq in E. symmetry.
    apply forallb_filter_id. apply forallb_forall. intros x Hx.
    apply negb_true_iff, String.eqb_neq. intros Hxid.
    apply Hd. rewrite E, <- Hxid. apply list_elem_of_In, in_map, Hx.
  - by rewrite IH.
Qed.

Lemma filter_swap {A} (f g : A -> bool) (l : list A) :
  List.filter f (List.filter g l) = List.filter g (List.filter f l).
Proof.
  induction l as [|a l IH]; simpl; [done|].
  destruct (f a) eqn:Ef, (g a) eqn:Eg; simpl; rewrite ?Ef, ?Eg, IH; done.
Qed.

Lemma insert_desc_front d l :
  (forall y, In y l -> Discount.percentage y <= Discount.percentage d) ->
  insert_desc d l = d :: l.
Proof.
  destruct l as [|x l]; simpl; [done|]. intros H.
  destruct (JS.gt _ _) eqn:E; [|done].
  apply gt_true_lt in E. specialize (H x (or_introl eq_refl)). lra.
Qed.

Lemma insert_desc_filter_in (g : Discount.t -> bool) d l :
  descending l -> g d = true ->
  List.filter g (insert_desc d l) = insert_desc d (List.filter g l).
Proof.
  intros Hl Hg. induction l as [|x l IH]; simpl; [by rewrite Hg|].
  assert (Hl' : descending l).
  { intros i j a b Hij Ha Hb. apply (Hl (S i) (S j)); [lia|done|done]. }
  specialize (IH Hl').
  destruct (JS.gt (Discount.percentage x) (Discount.percentage d)) eqn:E; simpl.
  - destruct (g x); simpl; rewrite ?E, IH; done.
  - rewrite Hg. apply gt_false_le in E.
    rewrite insert_desc_front; [done|].
    intros y Hy.
    assert (Hin : In y (x :: l)).
    { destruct (g x); [|right; by apply filter_In in Hy as [Hy _]].
      destruct Hy as [-> | Hy]; [by left|].
      right. by apply filter_In in Hy as [Hy _]. }
    destruct Hin as [-> | Hin]; [done|].
    apply list_elem_of_In, list_elem_of_lookup in Hin as [k Hk].
    assert (Discount.percentage y <= Discount.percentage x)
      by (apply (Hl 0%nat (S k)); [lia|done|done]).
    lra.
Qed.

Lemma insert_desc_filter_out (g : Discount.t -> bool) d l :
  g d = false ->
  List.filter g (insert_desc d l) = List.filter g l.
Proof.
  intros Hg. induction l as [|x l IH]; simpl; [by rewrite Hg|].
  destruct (JS.gt _ _); simpl; [by rewrite IH | by rewrite Hg].
Qed.

(** Sorting by percentage and filtering commute. *)
Lemma sort_filter (g : Discount.t -> bool) l :
  sort_percentage_desc (List.filter g l)
  = List.filter g (sort_percentage_desc l).
Proof.
  induction l as [|d l IH]; simpl; [done|].
  destruct (g d) eqn:Hg; simpl.
  - rewrite IH. symmetry. apply insert_desc_filter_in; [apply sort_descending | done].
  - rewrite IH. symmetry. by apply insert_desc_filter_out.
Qed.

End Delete.

(** X19. With discount ids unique, [deleteDiscount] on a stored discount
    answers 200 and removes exactly the discounts with that id, leaving
    products and users alone; afterwards [getDiscountById] answers 404 for
    the id, and [getApplicableDiscounts] returns for every product and user
    what it returned before, in the same order, without that discount. *)
Theorem X19_deleted_discount_no_longer_applies
    (now : Date) (id : ObjectId) (db : DB) (d : Discount.t) :
  unique_ids db ->
  In d (Discounts db) ->
  Discount._id d = id ->
  exists db',
    DiscountController.deleteDiscount id db
    = (inr (Success 200 "Discount deleted successfully"), db')
    /\ Products db' = Products db /\ Users db' = Users db
    /\ (forall x, In x (Discounts db')
                  <-> In x (Discounts db) /\ Discount._id x <> id)
    /\ fst (DiscountController.getDiscountById id db')
       = inr (Failure 404 "Discount not found")
    /\ (forall productId userId ds,
          fst (DiscountService.getApplicableDiscounts now productId userId db) = inr ds ->
          fst (DiscountService.getApplicableDiscounts now productId userId db')
          = inr (List.filter (fun x => negb (String.eqb (Discount._id x) id)) ds)).
Proof.
  intros Hu Hd Hid.
  unfold DiscountController.deleteDiscount, try_catch, bind, Discount_findByIdAndDelete.
  destruct (List.find _ (Discounts db)) as [d0|] eqn:Hf.
  2: { exfalso. apply (find_none _ _ Hf) in Hd. simpl in Hd.
       rewrite Hid, String.eqb_refl in Hd. done. }
  simpl. rewrite (remove_by_id_filter _ _ Hu).
  set (keep := fun x => negb (String.eqb (Discount._id x) id)).
  set (db' := mkDB _ _ _).
  assert (Hin : forall x, In x (Discounts db')
                          <-> In x (Discounts db) /\ Discount._id x <> id).
  { intros x. simpl. rewrite filter_In. unfold keep.
    by rewrite negb_true_iff, String.eqb_neq. }
  exists db'. split; [done|]. split; [done|]. split; [done|]. split; [exact Hin|].
  split.
  - unfold DiscountController.getDiscountById, try_catch, bind, Discount_findById.
    rewrite find_by_id_None; [done|].
    intros x Hx. by apply Hin in Hx as [_ Hx].
  - intros productId userId ds Hds.
    destruct (product_of db productId) as [p|] eqn:Hp.
    + rewrite (getApplicableDiscounts_run _ _ _ _ _ Hp) in Hds.
      simpl in Hds. injection Hds as <-.
      rewrite (getApplicableDiscounts_run now productId userId db' p Hp). simpl.
      f_equal. rewrite <- sort_filter. f_equal. apply filter_swap.
    + by rewrite (getApplicableDiscounts_missing _ _ _ _ Hp) in Hds.
Qed.

Lemma X19_witness :
  unique_ids Ex.db_AB
  /\ In Ex.A (Discounts Ex.db_AB)
  /\ Discount._id Ex.A = "dA"
  /\ exists db',
       DiscountController.deleteDiscount "dA" Ex.db_AB
       = (inr (Success 200 "Discount deleted successfully"), db')
       /\ fst (DiscountController.getDiscountById "dA" db')
          = inr (Failure 404 "Discount not found").
Proof.
  assert (H1 : unique_ids Ex.db_AB).
  { unfold unique_ids. simpl. apply NoDup_cons. split.
    - intros H. apply list_elem_of_In in H. simpl in H.
      destruct H as [H | []]. discriminate H.
    - apply NoDup_cons. split; [|apply NoDup_nil_2].
      intros H. apply list_elem_of_In in H. destruct H. }
  assert (H2 : In Ex.A (Discounts Ex.db_AB)) by (by left).
  assert (H3 : Discount._id Ex.A = "dA") by reflexivity.
  split; [exact H1|]. split; [exact H2|]. split; [exact H3|].
  destruct (X19_deleted_discount_no_longer_applies Ex.now "dA" Ex.db_AB Ex.A H1 H2 H3)
    as (db' & E1 & _ & _ & _ & E5 & _).
  exists db'. split; [exact E1 | exact E5].
Defined.
